(** * transCSSR demo script: a shallow embedding and its verified properties

    The development follows [demo_transCSSR.py]: the Python 2 built-ins the
    script relies on ([str.strip], [file.readline], [str.format],
    [itertools.product], string repetition), the script itself as a
    computation that logs every observable action, and the properties of
    the training / filtering pipeline it drives. *)

From Stdlib Require Import List String Ascii Arith Bool Lia QArith.
From Stdlib Require Import Numbers.DecimalString Numbers.DecimalNat.
Import ListNotations.
Local Close Scope Q_scope.
Local Open Scope string_scope.

(* ================================================================== *)
(** * Python built-ins used by the script *)
(* ================================================================== *)

Module Py.

(** [c.isspace()] for a byte of a Python 2 [str] in the C locale:
    space, \t, \n, \v, \f, \r. *)
Definition isspace (c : ascii) : bool :=
  let n := nat_of_ascii c in
  Nat.eqb n 32 || (Nat.leb 9 n && Nat.leb n 13).

Definition newline : ascii := ascii_of_nat 10.

(** [s.lstrip()] *)
Fixpoint lstrip (s : string) : string :=
  match s with
  | EmptyString => EmptyString
  | String c r => if isspace c then lstrip r else s
  end.

(** [s.rstrip()] *)
Fixpoint rstrip (s : string) : string :=
  match s with
  | EmptyString => EmptyString
  | String c r =>
      match rstrip r with
      | EmptyString => if isspace c then EmptyString else String c EmptyString
      | r' => String c r'
      end
  end.

(** [s.strip()]: whitespace removed at both ends. *)
Definition strip (s : string) : string := rstrip (lstrip s).

(** [f.readline()] on a freshly opened file whose content is [s]: the
    bytes up to and including the first newline, or everything when there
    is none. *)
Fixpoint readline (s : string) : string :=
  match s with
  | EmptyString => EmptyString
  | String c r =>
      if Ascii.eqb c newline then String c EmptyString
      else String c (readline r)
  end.

(** [s * n] *)
Fixpoint repeat_str (s : string) (n : nat) : string :=
  match n with
  | O => EmptyString
  | S k => s ++ repeat_str s k
  end.

(** [str(n)] / the rendering of a non-negative [int] by ['{}'.format]. *)
Definition str_of_nat (n : nat) : string :=
  NilZero.string_of_uint (Nat.to_uint n).

(** How [str.format] can fail to produce a string here. *)
Inductive FormatError : Type :=
| IndexError    (* fewer arguments than replacement fields *)
| ValueError    (* a single brace *)
| OtherField.   (* a replacement field other than the automatic one *)

(** [template.format(a1, ..., an)] with string arguments.  The
    replacement fields covered are the automatically numbered ones, written
    as an opening brace directly followed by a closing one; a doubled
    brace stands for the brace itself.  Arguments are inserted verbatim
    and never scanned again.  Any other field is answered by
    [OtherField]; the script has none. *)
Fixpoint format (template : string) (args : list string)
  : FormatError + string :=
  match template with
  | EmptyString => inr EmptyString
  | String c r =>
      if Ascii.eqb c "{" then
        match r with
        | String d r' =>
            if Ascii.eqb d "}" then
              match args with
              | [] => inl IndexError
              | a :: args' =>
                  match format r' args' with
                  | inr s => inr (a ++ s)
                  | inl e => inl e
                  end
              end
            else if Ascii.eqb d "{" then
              match format r' args with
              | inr s => inr (String "{" s)
              | inl e => inl e
              end
            else inl OtherField
        | EmptyString => inl ValueError
        end
      else if Ascii.eqb c "}" then
        match r with
        | String d r' =>
            if Ascii.eqb d "}" then
              match format r' args with
              | inr s => inr (String "}" s)
              | inl e => inl e
              end
            else inl ValueError
        | EmptyString => inl ValueError
        end
      else
        match format r args with
        | inr s => inr (String c s)
        | inl e => inl e
        end
  end.

(** [list(itertools.product(xs, ys))]: the pairs in the order of the
    nested loop [for x in xs: for y in ys: yield (x, y)]. *)
Fixpoint product {A B : Type} (xs : list A) (ys : list B) : list (A * B) :=
  match xs with
  | [] => []
  | x :: xs' => (map (fun y => (x, y)) ys ++ product xs' ys)%list
  end.

End Py.

(* ================================================================== *)
(** * The functions the script imports *)
(* ================================================================== *)

(** [demo_transCSSR.py] star-imports [transCSSR] and [filter_data_methods]
    and calls four of their functions.  The script only moves their
    results around (and takes [len] of one of them), so the result types
    and the functions are the fields of an interface.  A call either
    returns or raises ([inl]). *)
Record Library : Type := {
  WordLookup : Type;        (* word_lookup_marg, word_lookup_fut *)
  Epsilon : Type;           (* epsilon *)
  Invepsilon : Type;        (* invepsilon *)
  Morphs : Type;            (* morph_by_state *)
  FilteredStates : Type;    (* filtered_states *)
  FilteredProbs : Type;     (* filtered_probs *)
  Predicted : Type;         (* stringY_pred *)
  LibExn : Type;            (* whatever a call may raise *)
  len_invepsilon : Invepsilon -> nat;   (* len(invepsilon) *)
  estimate_predictive_distributions :
    string -> string -> nat -> LibExn + (WordLookup * WordLookup);
  run_transCSSR :
    WordLookup -> WordLookup -> nat -> list string -> list string ->
    list (string * string) -> string -> string ->
    LibExn + (Epsilon * Invepsilon * Morphs);
  print_morph_by_states : Morphs -> LibExn + unit;
  filter_and_predict :
    string -> string -> Epsilon -> Invepsilon -> Morphs ->
    list string -> list string -> list (string * string) -> nat ->
    LibExn + (FilteredStates * FilteredProbs * Predicted)
}.

(** The assignments of the script's two parameter blocks. *)
Record Config : Type := {
  data_prefix : string;
  Yt_name : string;
  Xt_name : string;
  axs : list string;
  ays : list string;
  alpha : Q;
  verbose : bool;
  L_max : nat
}.

(** The values the script is committed with. *)
Definition demo_config : Config := {|
  data_prefix := "";
  Yt_name := "coinflip-excite_w_refrac";
  Xt_name := "coinflip";
  axs := ["0"; "1"; "2"];
  ays := ["0"; "1"];
  alpha := (1 # 1000)%Q;
  verbose := false;
  L_max := 1
|}.

(** The files the script can see: path to content, [None] when [open]
    fails. *)
Definition FileSystem : Type := string -> option string.

(* ================================================================== *)
(** * The script *)
(* ================================================================== *)

Module Demo.

(** The first line of a file as a reader would describe it: the text
    before the first newline (all of it when there is none).  It is
    compared below with what [readline] followed by [strip] keeps. *)
Fixpoint first_line (content : string) : string :=
  match content with
  | EmptyString => EmptyString
  | String c r =>
      if Ascii.eqb c Py.newline then EmptyString
      else String c (first_line r)
  end.

(** Only whitespace. *)
Fixpoint all_space (s : string) : bool :=
  match s with
  | EmptyString => true
  | String c r => Py.isspace c && all_space r
  end.

(** The last character of a string. *)
Fixpoint last_char (s : string) : option ascii :=
  match s with
  | EmptyString => None
  | String c EmptyString => Some c
  | String _ r => last_char r
  end.

(** Neither the first nor the last character is whitespace. *)
Definition trimmed (s : string) : Prop :=
  (forall c r, s = String c r -> Py.isspace c = false) /\
  (forall c, last_char s = Some c -> Py.isspace c = false).

(** [s] is [line] with leading and trailing whitespace stripped. *)
Definition stripped_of (line s : string) : Prop :=
  exists l r, line = l ++ s ++ r /\
              all_space l = true /\ all_space r = true /\ trimmed s.

(** The names the script builds with [format]. *)
Definition data_path (prefix name : string) : string :=
  "data/" ++ prefix ++ name ++ ".dat".

Definition dot_cmd (xt yt : string) : string :=
  "open transCSSR_results/" ++ xt ++ "+" ++ yt ++ ".dot".

Definition dat_results_cmd (xt yt : string) : string :=
  "open transCSSR_results/" ++ xt ++ "+" ++ yt ++ ".dat_results".

Definition states_msg (n : nat) : string :=
  "The epsilon-transducer has " ++ Py.str_of_nat n ++ " states.".

(** No newline character. *)
Fixpoint no_newline (s : string) : bool :=
  match s with
  | EmptyString => true
  | String c r => negb (Ascii.eqb c Py.newline) && no_newline r
  end.

Section Script.

Context (lib : Library).

Inductive exn : Type :=
| AssertionError (msg : string)
| IOError (path : string)
| FormatExn (e : Py.FormatError)
| LibraryError (e : LibExn lib).

(** What a run does to the outside world, in order. *)
Inductive Event : Type :=
| EvOpen (path : string)
| EvPrint (line : string)
| EvSystem (cmd : string)
| EvEstimate (stringX stringY : string) (L : nat)
| EvRunTransCSSR (marg fut : WordLookup lib) (L : nat)
    (axs ays : list string) (e_symbols : list (string * string))
    (Xt_name Yt_name : string)
| EvPrintMorph (morph : Morphs lib)
| EvFilter (stringX stringY : string) (epsilon : Epsilon lib)
    (invepsilon : Invepsilon lib) (morph : Morphs lib)
    (axs ays : list string) (e_symbols : list (string * string)) (L : nat).

(** The calls into the imported modules. *)
Definition is_call (e : Event) : bool :=
  match e with
  | EvEstimate _ _ _ | EvRunTransCSSR _ _ _ _ _ _ _ _
  | EvPrintMorph _ | EvFilter _ _ _ _ _ _ _ _ _ => true
  | _ => false
  end.

(** A computation yields the events it performed and then a value or the
    exception that stopped it. *)
Definition M (A : Type) : Type := list Event * (exn + A).

Definition ret {A} (a : A) : M A := ([], inr a).

Definition bind {A B} (m : M A) (k : A -> M B) : M B :=
  match m with
  | (t, inl e) => (t, inl e)
  | (t, inr a) => let (t', r) := k a in ((t ++ t')%list, r)
  end.

Definition raise {A} (e : exn) : M A := ([], inl e).

Definition emit (e : Event) : M unit := ([e], inr tt).

Definition call {A} (e : Event) (r : LibExn lib + A) : M A :=
  ([e], match r with inl x => inl (LibraryError x) | inr a => inr a end).

Local Notation "x <- c1 ;; c2" := (bind c1 (fun x => c2))
  (at level 61, c1 at next level, right associativity).
Local Notation "' pat <- c1 ;; c2" :=
  (bind c1 (fun x => match x with pat => c2 end))
  (at level 61, pat pattern, c1 at next level, right associativity).
Local Notation "c1 ;; c2" := (bind c1 (fun _ => c2))
  (at level 61, right associativity).

(** [template.format(...)] as a step of the script. *)
Definition fmt (template : string) (args : list string) : M string :=
  match Py.format template args with
  | inr s => ret s
  | inl e => raise (FormatExn e)
  end.

(** [open(path).readline()] *)
Definition open_readline (fs : FileSystem) (path : string) : M string :=
  match fs path with
  | Some content => emit (EvOpen path) ;; ret (Py.readline content)
  | None => emit (EvOpen path) ;; raise (IOError path)
  end.

(** [assert cond, msg] *)
Definition assert (cond : bool) (msg : string) : M unit :=
  if cond then ret tt else raise (AssertionError msg).

(** [print line] *)
Definition print (line : string) : M unit := emit (EvPrint line).

(** [os.system(cmd)]; the exit status is dropped by the script. *)
Definition os_system (cmd : string) : M unit := emit (EvSystem cmd).

(** Lines 57-62: load the data for each process. *)
Definition load_data (cfg : Config) (fs : FileSystem) : M (string * string) :=
  pathY <- fmt "data/{}{}.dat" [data_prefix cfg; Yt_name cfg] ;;
  lineY <- open_readline fs pathY ;;
  let stringY := Py.strip lineY in
  stringX <-
    (if Xt_name cfg =? "" then
       ret (Py.repeat_str "0" (String.length stringY))
     else
       pathX <- fmt "data/{}{}.dat" [data_prefix cfg; Xt_name cfg] ;;
       lineX <- open_readline fs pathX ;;
       ret (Py.strip lineX)) ;;
  ret (stringX, stringY).

Definition length_msg : string :=
  "The two time series must have the same length.".

Definition warning_msg : string :=
  "Warning: The epsilon-transducer has {} states, so we will not open the dot file.".

(** Line 82: all of the possible pairs of emission symbols for (x, y). *)
Definition e_symbols (cfg : Config) : list (string * string) :=
  Py.product (axs cfg) (ays cfg).

(** Lines 82-117: alphabets, the length assertion, training, reporting
    and filtering. *)
Definition train_and_filter (cfg : Config) (stringX stringY : string)
  : M (FilteredStates lib * FilteredProbs lib * Predicted lib) :=
  let e_symbols := e_symbols cfg in
  let Tx := String.length stringX in
  let Ty := String.length stringY in
  assert (Nat.eqb Tx Ty) length_msg ;;
  let T := Tx in
  ' (word_lookup_marg, word_lookup_fut) <-
    call (EvEstimate stringX stringY (L_max cfg))
         (estimate_predictive_distributions lib stringX stringY (L_max cfg)) ;;
  ' (epsilon, invepsilon, morph_by_state) <-
    call (EvRunTransCSSR word_lookup_marg word_lookup_fut (L_max cfg)
            (axs cfg) (ays cfg) e_symbols (Xt_name cfg) (Yt_name cfg))
         (run_transCSSR lib word_lookup_marg word_lookup_fut (L_max cfg)
            (axs cfg) (ays cfg) e_symbols (Xt_name cfg) (Yt_name cfg)) ;;
  line <- fmt "The epsilon-transducer has {} states."
            [Py.str_of_nat (len_invepsilon lib invepsilon)] ;;
  print line ;;
  (if Nat.ltb (len_invepsilon lib invepsilon) 30 then
     cmd <- fmt "open transCSSR_results/{}+{}.dot" [Xt_name cfg; Yt_name cfg] ;;
     os_system cmd
   else
     print warning_msg) ;;
  cmd <- fmt "open transCSSR_results/{}+{}.dat_results"
           [Xt_name cfg; Yt_name cfg] ;;
  os_system cmd ;;
  call (EvPrintMorph morph_by_state) (print_morph_by_states lib morph_by_state) ;;
  call (EvFilter stringX stringY epsilon invepsilon morph_by_state
          (axs cfg) (ays cfg) e_symbols (L_max cfg))
       (filter_and_predict lib stringX stringY epsilon invepsilon morph_by_state
          (axs cfg) (ays cfg) e_symbols (L_max cfg)).

(** The whole of [demo_transCSSR.py]. *)
Definition script (cfg : Config) (fs : FileSystem)
  : M (FilteredStates lib * FilteredProbs lib * Predicted lib) :=
  ' (stringX, stringY) <- load_data cfg fs ;;
  train_and_filter cfg stringX stringY.

(** The events between the two training calls and the filtering call,
    as the script produces them for a given training result. *)
Definition report_events (cfg : Config) (invepsilon : Invepsilon lib)
    (morph_by_state : Morphs lib) : list Event :=
  [ EvPrint (states_msg (len_invepsilon lib invepsilon));
    (if Nat.ltb (len_invepsilon lib invepsilon) 30
     then EvSystem (dot_cmd (Xt_name cfg) (Yt_name cfg))
     else EvPrint warning_msg);
    EvSystem (dat_results_cmd (Xt_name cfg) (Yt_name cfg));
    EvPrintMorph morph_by_state ].

(** A trace that only opens files. *)
Definition only_opens (tr : list Event) : Prop :=
  forall e, In e tr -> exists p, e = EvOpen p.

(** The stages of the pipeline the script drives. *)
Inductive Stage : Type :=
| Estimation    (* estimate_predictive_distributions *)
| Inference     (* run_transCSSR *)
| Filtering.    (* filter_and_predict *)

Definition stage (e : Event) : list Stage :=
  match e with
  | EvEstimate _ _ _ => [Estimation]
  | EvRunTransCSSR _ _ _ _ _ _ _ _ => [Inference]
  | EvFilter _ _ _ _ _ _ _ _ _ => [Filtering]
  | _ => []
  end.

(** The stages a trace went through, in order. *)
Definition stages (tr : list Event) : list Stage := flat_map stage tr.

(** The calls into the imported modules, in the order they happened. *)
Definition calls (tr : list Event) : list Event := filter is_call tr.

End Script.

Arguments AssertionError {lib} msg.
Arguments IOError {lib} path.
Arguments FormatExn {lib} e.
Arguments LibraryError {lib} e.
Arguments EvOpen {lib} path.
Arguments EvPrint {lib} line.
Arguments EvSystem {lib} cmd.
Arguments EvEstimate {lib} stringX stringY L.
Arguments EvRunTransCSSR {lib} marg fut L axs ays e_symbols Xt_name Yt_name.
Arguments EvPrintMorph {lib} morph.
Arguments EvFilter {lib} stringX stringY epsilon invepsilon morph axs ays e_symbols L.
Arguments is_call {lib} e.
Arguments report_events {lib} cfg invepsilon morph_by_state.
Arguments only_opens {lib} tr.
Arguments calls {lib} tr.
Arguments stage {lib} e.
Arguments stages {lib} tr.

End Demo.

(** ** Concrete surroundings for running the script *)

(** A stand-in for the imported modules whose training always reports a
    transducer of [n] states; results carry no other information. *)
Definition constant_library (n : nat) : Library := {|
  WordLookup := unit;
  Epsilon := unit;
  Invepsilon := nat;
  Morphs := unit;
  FilteredStates := unit;
  FilteredProbs := unit;
  Predicted := unit;
  LibExn := unit;
  len_invepsilon := fun k => k;
  estimate_predictive_distributions := fun _ _ _ => inr (tt, tt);
  run_transCSSR := fun _ _ _ _ _ _ _ _ => inr (tt, n, tt);
  print_morph_by_states := fun _ => inr tt;
  filter_and_predict := fun _ _ _ _ _ _ _ _ _ => inr (tt, tt, tt)
|}.

(** A file system holding the listed files. *)
Fixpoint files (l : list (string * string)) : FileSystem :=
  fun path =>
    match l with
    | [] => None
    | (p, content) :: r => if String.eqb p path then Some content else files r path
    end.

(** The two data files of the committed configuration, with the given
    contents. *)
Definition demo_files (contentX contentY : string) : FileSystem :=
  files [("data/coinflip.dat", contentX);
         ("data/coinflip-excite_w_refrac.dat", contentY)].

(** The committed configuration with the input-process name emptied
    (the commented-out alternative [Xt_name = '']). *)
Definition synthetic_input_config : Config := {|
  data_prefix := data_prefix demo_config;
  Yt_name := Yt_name demo_config;
  Xt_name := "";
  axs := axs demo_config;
  ays := ays demo_config;
  alpha := alpha demo_config;
  verbose := verbose demo_config;
  L_max := L_max demo_config
|}.

Definition nl : string := String Py.newline EmptyString.

(** Data files whose first lines differ in length. *)
Definition mismatched_files : FileSystem :=
  demo_files ("0110" ++ nl) ("011" ++ nl).

(** Data files whose first lines strip to sequences of one length. *)
Definition matched_files : FileSystem :=
  demo_files (" 0120" ++ nl ++ "1111") ("0110 " ++ nl).

(** Data files whose first lines are empty: T = 0. *)
Definition empty_files : FileSystem := demo_files "" nl.

(* ================================================================== *)
(** * The core behind the imported functions *)
(* ================================================================== *)

(** The bodies of [estimate_predictive_distributions], [run_transCSSR]
    and [filter_and_predict] (modules [transCSSR] and
    [filter_data_methods]) are not in the sources at hand.  What is proved
    about training and filtering is proved about the following model,
    written from the design document of the core: its data model, the
    Determinizer, the TransducerModel and the FilterPredictor.  The
    CausalStateInferrer enters through its result, the frozen partition:
    which histories it separates is decided by a statistical test that the
    design leaves open, and nothing below depends on that choice. *)
Module Core.

Section Symbols.

Context {X Y : Type}.
Context (X_eq_dec : forall a b : X, {a = b} + {a <> b}).
Context (Y_eq_dec : forall a b : Y, {a = b} + {a <> b}).

(** Modelled from the spec: a JointSymbol is a pair (input symbol, output
    symbol). *)
Definition JointSymbol : Type := (X * Y)%type.

(** Modelled from the spec: a History is an ordered sequence of
    JointSymbols (oldest first); the null history is the empty one. *)
Definition History : Type := list JointSymbol.

(** Modelled from the spec: a CausalState has a stable identifier. *)
Definition State : Type := nat.

(** Modelled from the spec: a PredictiveDistribution maps the next output
    symbol to an estimated probability. *)
Definition Distribution : Type := list (Y * Q).

(** Modelled from the spec: symbols of a finite alphabet can be compared,
    and so can joint symbols, histories and state identifiers (what the
    lookups of the missing functions need). *)
Definition joint_eq_dec (a b : JointSymbol) : {a = b} + {a <> b}.
Proof. decide equality. Defined.

(** Modelled from the spec: comparison of two histories, as a lookup of
    the missing [filter_and_predict] needs it. *)
Definition history_eqb (h k : History) : bool :=
  if list_eq_dec joint_eq_dec h k then true else false.

(** Modelled from the spec: comparison of two joint symbols, as the
    missing Determinizer needs it. *)
Definition joint_eqb (a b : JointSymbol) : bool :=
  if joint_eq_dec a b then true else false.

(** Modelled from the spec: "this history is assigned to state s", for
    the missing Determinizer. *)
Definition state_is (o : option State) (s : State) : bool :=
  match o with
  | Some s' => Nat.eqb s' s
  | None => false
  end.

(** Modelled from the spec: histories longer than L_max are truncated to
    their most recent L_max joint symbols before lookup. *)
Definition truncate (L : nat) (h : History) : History :=
  skipn (List.length h - L) h.

(** Modelled from the spec: of a CausalState's attributes, the stable
    identifier and the representative history. *)
Record CausalState : Type := {
  ident : State;
  representative : History
}.

(** Modelled from the spec: the Transducer is a set of CausalStates, a
    transition function delta(state, input, output) that may be undefined,
    and a per-state morph conditioned on the input symbol, whose query
    answers with an explicit unknown ([None]).  [start] is the state
    associated with the null history. *)
Record Transducer : Type := {
  states : list CausalState;
  start : option State;
  delta : State -> X -> Y -> option State;
  morph : State -> X -> option Distribution
}.

(** ** FilterPredictor *)

(** Modelled from the spec: the states of the FilterPredictor,
    Synchronized(s) for each causal state s, and Unsynchronized.  The same
    values label the positions of a trajectory. *)
Inductive FilterState : Type :=
| Synchronized (s : State)
| Unsynchronized.

(** Modelled from the spec: what is emitted at a position, the morph of
    the current state conditioned on the input symbol (or the explicit
    unknown), or "no prediction". *)
Inductive Prediction : Type :=
| Predict (d : Distribution)
| UnknownMorph
| NoPrediction.

(** Modelled from the spec: the initial state is the state associated
    with the null history. *)
Definition initial (m : Transducer) : FilterState :=
  match start m with
  | Some s => Synchronized s
  | None => Unsynchronized
  end.

(** Modelled from the spec: resynchronization compares the most recent
    L_max-or-fewer symbols read against the known representative
    histories. *)
Definition resync (m : Transducer) (L : nat) (read : History) : option State :=
  match find (fun c => history_eqb (representative c) (truncate L read))
             (states m) with
  | Some c => Some (ident c)
  | None => None
  end.

(** Modelled from the spec: the prediction for y is made before reading
    it, from the morph of the current state conditioned on x. *)
Definition predict (m : Transducer) (q : FilterState) (x : X) : Prediction :=
  match q with
  | Synchronized s =>
      match morph m s x with
      | Some d => Predict d
      | None => UnknownMorph
      end
  | Unsynchronized => NoPrediction
  end.

(** Modelled from the spec: the transition on reading (x, y).  From
    Synchronized(s) follow delta when it is defined, else move to
    Unsynchronized; from Unsynchronized recover on a match of the symbols
    read, else remain. *)
Definition next (m : Transducer) (L : nat) (q : FilterState)
    (read : History) (a : JointSymbol) : FilterState :=
  match q with
  | Synchronized s =>
      match delta m s (fst a) (snd a) with
      | Some s' => Synchronized s'
      | None => Unsynchronized
      end
  | Unsynchronized =>
      match resync m L (read ++ [a])%list with
      | Some s => Synchronized s
      | None => Unsynchronized
      end
  end.

(** Modelled from the spec: the state machine inside the missing
    [filter_and_predict].  It has no terminal state; every position yields
    the label of the current state and the prediction used there, and
    [read] is what has been read before. *)
Fixpoint run (m : Transducer) (L : nat) (q : FilterState) (read : History)
    (data : list JointSymbol) : list (FilterState * Prediction) :=
  match data with
  | [] => []
  | a :: rest =>
      (q, predict m q (fst a))
        :: run m L (next m L q read a) (read ++ [a])%list rest
  end.

(** Modelled from the spec: the state the machine of the missing
    [filter_and_predict] is in when [t] joint symbols of [data] have been
    read. *)
Fixpoint state_after (m : Transducer) (L : nat) (q : FilterState)
    (read : History) (data : list JointSymbol) (t : nat) : FilterState :=
  match t, data with
  | S t', a :: rest =>
      state_after m L (next m L q read a) (read ++ [a])%list rest t'
  | _, _ => q
  end.

(** Modelled from the spec: the DataError of the missing functions,
    mismatched sequence lengths, symbols outside the declared alphabet, or
    insufficient data length relative to L_max. *)
Inductive DataError : Type :=
| MismatchedLengths
| SymbolOutsideAlphabet
| InsufficientData.

(** Modelled from the spec: [filter_and_predict], whose body is missing.
    Prediction takes a pair of input/output sequences and a Transducer and
    returns the causal-state trajectory and the predictive-distribution
    trajectory; sequences of different lengths are a DataError. *)
Definition filter_and_predict (m : Transducer) (L : nat)
    (stringX : list X) (stringY : list Y)
  : DataError + (list FilterState * list Prediction) :=
  if Nat.eqb (List.length stringX) (List.length stringY) then
    let out := run m L (initial m) [] (combine stringX stringY) in
    inr (map fst out, map snd out)
  else inl MismatchedLengths.

(** ** Training *)

(** Modelled from the spec: the mapping from History to CausalState, as
    the CausalStateInferrer leaves it when the partition is frozen.  Which
    histories it separates is decided by the statistical test, which the
    design leaves to the implementer. *)
Definition Partition : Type := History -> option State.

(** Modelled from the spec: the histories of length 0..L_max that end
    where [t] joint symbols have been read. *)
Definition histories_at (L : nat) (data : list JointSymbol) (t : nat)
  : list History :=
  map (fun l => truncate l (firstn t data)) (seq 0 (S (Nat.min L t))).

(** Modelled from the spec: every occurrence of a history of length
    0..L_max in the data. *)
Definition histories (L : nat) (data : list JointSymbol) : list History :=
  flat_map (histories_at L data) (seq 0 (S (List.length data))).

(** Modelled from the spec: every occurrence of a history together with
    the joint symbol that immediately follows it. *)
Definition followers (L : nat) (data : list JointSymbol)
  : list (History * JointSymbol) :=
  flat_map
    (fun t =>
       match nth_error data t with
       | Some a => map (fun h => (h, a)) (histories_at L data t)
       | None => []
       end)
    (seq 0 (List.length data)).

(** Modelled from the spec: the Determinizer collects, across all
    histories assigned to s, the successor states reached by appending
    each observed (x, y) pair. *)
Definition successors (part : Partition) (L : nat)
    (fol : list (History * JointSymbol)) (s : State) (a : JointSymbol)
  : list State :=
  flat_map
    (fun ha : History * JointSymbol =>
       if state_is (part (fst ha)) s && joint_eqb (snd ha) a then
         match part (truncate L (fst ha ++ [a])%list) with
         | Some s' => [s']
         | None => []
         end
       else [])
    fol.

(** Modelled from the spec: "the set of successors is at most a
    singleton", the test of the missing Determinizer on a collected
    list. *)
Definition at_most_one (l : list State) : bool :=
  match l with
  | [] => true
  | s :: r => forallb (Nat.eqb s) r
  end.

(** Modelled from the spec: the partition is unifilar when every
    (s, x, y) has at most one successor. *)
Definition unifilar (part : Partition) (L : nat)
    (fol : list (History * JointSymbol)) : bool :=
  forallb
    (fun ha : History * JointSymbol =>
       match part (fst ha) with
       | Some s => at_most_one (successors part L fol s (snd ha))
       | None => true
       end)
    fol.

(** Modelled from the spec: delta(s, x, y) is the successor when there is
    one and undefined on combinations never observed. *)
Definition delta_of (part : Partition) (L : nat)
    (fol : list (History * JointSymbol)) (s : State) (x : X) (y : Y)
  : option State :=
  hd_error (successors part L fol s (x, y)).

(** Modelled from the spec: the aggregated count behind a morph of the
    missing [run_transCSSR], how often output [y] follows input [x] after
    a history of state [s]. *)
Definition count_out (part : Partition) (fol : list (History * JointSymbol))
    (s : State) (x : X) (y : Y) : nat :=
  List.length
    (filter (fun ha : History * JointSymbol =>
               state_is (part (fst ha)) s && joint_eqb (snd ha) (x, y))
            fol).

(** Modelled from the spec: the morph of a state is the conditional
    distribution over next output symbols given the input symbol, derived
    from the aggregated counts of all histories in that state; unknown
    when the state was never followed by that input. *)
Definition morph_of (part : Partition) (fol : list (History * JointSymbol))
    (ays : list Y) (s : State) (x : X) : option Distribution :=
  let total := list_sum (map (count_out part fol s x) ays) in
  match total with
  | O => None
  | S _ =>
      Some (map (fun y => (y, (Z.of_nat (count_out part fol s x y)
                                 # Pos.of_nat total)%Q)) ays)
  end.

(** Modelled from the spec: one CausalState per identifier in use, with
    the first history assigned to it as its representative. *)
Fixpoint collect_states (part : Partition) (hs : list History)
    (seen : list State) : list CausalState :=
  match hs with
  | [] => []
  | h :: r =>
      match part h with
      | Some s =>
          if existsb (Nat.eqb s) seen then collect_states part r seen
          else {| ident := s; representative := h |}
                 :: collect_states part r (s :: seen)
      | None => collect_states part r seen
      end
  end.

(** Modelled from the spec: the errors of training, the DataError of the
    input checks and the DeterminizationError of a partition that is not
    unifilar within L_max. *)
Inductive TrainError : Type :=
| Data (e : DataError)
| DeterminizationError.

(** Modelled from the spec: "a symbol of the declared alphabet", for the
    input check of the missing training functions. *)
Definition in_alphabet {A : Type} (A_eq_dec : forall a b : A, {a = b} + {a <> b})
    (alphabet : list A) (a : A) : bool :=
  if in_dec A_eq_dec a alphabet then true else false.

(** Modelled from the spec: training, that is
    [estimate_predictive_distributions] followed by [run_transCSSR],
    whose bodies are missing.  The input checks come first (equal lengths,
    symbols of the declared alphabets, at least L_max joint symbols); the
    Transducer is constructed once from the frozen partition [part], and
    only when that partition is unifilar. *)
Definition train (axs : list X) (ays : list Y) (L : nat) (part : Partition)
    (stringX : list X) (stringY : list Y) : TrainError + Transducer :=
  if negb (Nat.eqb (List.length stringX) (List.length stringY)) then
    inl (Data MismatchedLengths)
  else if negb (forallb (in_alphabet X_eq_dec axs) stringX
                && forallb (in_alphabet Y_eq_dec ays) stringY) then
    inl (Data SymbolOutsideAlphabet)
  else if Nat.ltb (List.length stringX) L then
    inl (Data InsufficientData)
  else
    let data := combine stringX stringY in
    let fol := followers L data in
    if unifilar part L fol then
      inr {| states := collect_states part (histories L data) [];
             start := part [];
             delta := delta_of part L fol;
             morph := morph_of part fol ays |}
    else inl DeterminizationError.

End Symbols.

End Core.

(** ** A transducer and a training set over numeric symbols *)

(** Three states over one input symbol: the start state and one state per
    last output symbol; input symbols other than 0 were never observed. *)
Definition last_output_transducer : @Core.Transducer nat nat := {|
  Core.states :=
    [ {| Core.ident := 0; Core.representative := [] |};
      {| Core.ident := 1; Core.representative := [(0, 0)] |};
      {| Core.ident := 2; Core.representative := [(0, 1)] |} ];
  Core.start := Some 0;
  Core.delta := fun _ x y => if Nat.eqb x 0 then Some (S y) else None;
  Core.morph := fun _ x =>
    if Nat.eqb x 0 then Some [(0, (1 # 2)%Q); (1, (1 # 2)%Q)] else None
|}.

(** The partition that tells histories apart by their last output
    symbol. *)
Definition last_output_partition : @Core.Partition nat nat :=
  fun h =>
    match rev h with
    | [] => Some 0
    | (_, y) :: _ => Some (S y)
    end.

(** The partition with a single state. *)
Definition single_state_partition : @Core.Partition nat nat :=
  fun _ => Some 0.

(** A partition that keeps the null history and the histories of length 1
    together and tells the histories of length 2 apart by their older
    output symbol: the successor of the first state is not determined by
    the symbol read. *)
Definition older_output_partition : @Core.Partition nat nat :=
  fun h =>
    match h with
    | [(_, y); _] => Some (S y)
    | _ => Some 0
    end.

Definition coin_inputs : list nat := [0; 0; 0; 0; 0; 0].
Definition coin_outputs : list nat := [0; 1; 1; 0; 1; 0].

(** ** Further surroundings for running the script *)

(** What a run shows to its user: printed lines and viewer commands. *)
Definition is_output {lib : Library} (e : Demo.Event lib) : bool :=
  match e with
  | Demo.EvPrint _ | Demo.EvSystem _ => true
  | _ => false
  end.

(** A stand-in for the imported modules whose estimator raises. *)
Definition failing_library : Library := {|
  WordLookup := unit;
  Epsilon := unit;
  Invepsilon := nat;
  Morphs := unit;
  FilteredStates := unit;
  FilteredProbs := unit;
  Predicted := unit;
  LibExn := string;
  len_invepsilon := fun k => k;
  estimate_predictive_distributions := fun _ _ _ => inl "estimation failed";
  run_transCSSR := fun _ _ _ _ _ _ _ _ => inr (tt, 3, tt);
  print_morph_by_states := fun _ => inr tt;
  filter_and_predict := fun _ _ _ _ _ _ _ _ _ => inr (tt, tt, tt)
|}.

(** The committed configuration with the input process set to the output
    process. *)
Definition same_process_config : Config := {|
  data_prefix := data_prefix demo_config;
  Yt_name := "coinflip";
  Xt_name := "coinflip";
  axs := axs demo_config;
  ays := ays demo_config;
  alpha := alpha demo_config;
  verbose := verbose demo_config;
  L_max := L_max demo_config
|}.

(** The committed configuration with another significance level and the
    verbosity switched on. *)
Definition other_alpha_config : Config := {|
  data_prefix := data_prefix demo_config;
  Yt_name := Yt_name demo_config;
  Xt_name := Xt_name demo_config;
  axs := axs demo_config;
  ays := ays demo_config;
  alpha := (1 # 20)%Q;
  verbose := true;
  L_max := L_max demo_config
|}.

(** No plus sign in a name. *)
Fixpoint no_plus (s : string) : bool :=
  match s with
  | EmptyString => true
  | String c r => negb (Ascii.eqb c "+") && no_plus r
  end.

(** Carriage return, and the line ending of a file written on Windows. *)
Definition cr : string := String (ascii_of_nat 13) EmptyString.
Definition crlf : string := cr ++ nl.

(* ================================================================== *)
(** * The estimator behind the script's first call *)
(* ================================================================== *)

(** The body of [estimate_predictive_distributions] is not in the sources
    at hand.  The model below is written from the design document of the
    DistributionEstimator and of the DataError. *)
Module Estimator.

Section Tables.

Context {X Y : Type}.
Context (X_eq_dec : forall a b : X, {a = b} + {a <> b}).
Context (Y_eq_dec : forall a b : Y, {a = b} + {a <> b}).

(** Modelled from the spec: the key of an entry of the tables of the
    missing [estimate_predictive_distributions], a history, and for the
    future table the output symbol that follows it. *)
Definition Key : Type := (@Core.History X Y * option Y)%type.

(** Modelled from the spec: a frequency table of the missing
    [estimate_predictive_distributions], the keys that occur with their
    counts. *)
Definition Table : Type := list (Key * nat).

(** Modelled from the spec: keys can be compared (what counting in the
    missing [estimate_predictive_distributions] needs). *)
Definition key_eq_dec (a b : Key) : {a = b} + {a <> b}.
Proof.
  decide equality.
  - decide equality.
  - apply (list_eq_dec (Core.joint_eq_dec X_eq_dec Y_eq_dec)).
Defined.

(** Modelled from the spec: counting for the tables of the missing
    [estimate_predictive_distributions].  A key that never occurs produces
    no entry rather than an entry with count zero. *)
Definition count_table (occurrences : list Key) : Table :=
  map (fun k => (k, count_occ key_eq_dec occurrences k))
      (nodup key_eq_dec occurrences).

(** Modelled from the spec: [estimate_predictive_distributions], whose
    body is missing.  Input and output sequences must have equal length T,
    and T < L_max is insufficient data: both are a DataError, surfaced
    before anything is counted.  Otherwise two tables are produced, the
    counts of each distinct history of length 0..L_max occurring in the
    data (marginal) and, for each such history, the counts of the output
    symbol that immediately follows each occurrence (future). *)
Definition estimate_predictive_distributions (L : nat)
    (stringX : list X) (stringY : list Y)
  : Core.DataError + (Table * Table) :=
  if negb (Nat.eqb (List.length stringX) (List.length stringY)) then
    inl Core.MismatchedLengths
  else if Nat.ltb (List.length stringX) L then
    inl Core.InsufficientData
  else
    let data := combine stringX stringY in
    inr (count_table (map (fun h => (h, None)) (Core.histories L data)),
         count_table
           (map (fun ha : @Core.History X Y * @Core.JointSymbol X Y =>
                   (fst ha, Some (snd (snd ha))))
                (Core.followers L data))).

End Tables.

End Estimator.

(** The symbols of a sequence as the script holds it, one per
    character. *)
Definition symbols (s : string) : list ascii := list_ascii_of_string s.

(** Whatever follows estimation in the imported modules: the functions
    the script calls after [estimate_predictive_distributions], over the
    tables of the estimator above. *)
Record Downstream : Type := {
  DEpsilon : Type;
  DInvepsilon : Type;
  DMorphs : Type;
  DFilteredStates : Type;
  DFilteredProbs : Type;
  DPredicted : Type;
  DExn : Type;
  d_len_invepsilon : DInvepsilon -> nat;
  d_run_transCSSR :
    @Estimator.Table ascii ascii -> @Estimator.Table ascii ascii -> nat ->
    list string -> list string -> list (string * string) ->
    string -> string -> DExn + (DEpsilon * DInvepsilon * DMorphs);
  d_print_morph_by_states : DMorphs -> DExn + unit;
  d_filter_and_predict :
    string -> string -> DEpsilon -> DInvepsilon -> DMorphs ->
    list string -> list string -> list (string * string) -> nat ->
    DExn + (DFilteredStates * DFilteredProbs * DPredicted)
}.

Definition lift_exn {E F A : Type} (f : E -> F) (r : E + A) : F + A :=
  match r with
  | inl e => inl (f e)
  | inr a => inr a
  end.

(** The imported modules with the estimator of the design document in
    the place of [estimate_predictive_distributions]; a call raises the
    estimator's DataError or whatever the other functions raise. *)
Definition spec_estimator_library (d : Downstream) : Library := {|
  WordLookup := @Estimator.Table ascii ascii;
  Epsilon := DEpsilon d;
  Invepsilon := DInvepsilon d;
  Morphs := DMorphs d;
  FilteredStates := DFilteredStates d;
  FilteredProbs := DFilteredProbs d;
  Predicted := DPredicted d;
  LibExn := (Core.DataError + DExn d)%type;
  len_invepsilon := d_len_invepsilon d;
  estimate_predictive_distributions := fun stringX stringY L =>
    lift_exn inl
      (Estimator.estimate_predictive_distributions
         Ascii.ascii_dec Ascii.ascii_dec L (symbols stringX) (symbols stringY));
  run_transCSSR := fun marg fut L axs ays e_symbols xt yt =>
    lift_exn inr (d_run_transCSSR d marg fut L axs ays e_symbols xt yt);
  print_morph_by_states := fun morph =>
    lift_exn inr (d_print_morph_by_states d morph);
  filter_and_predict :=
    fun stringX stringY epsilon invepsilon morph axs ays e_symbols L =>
      lift_exn inr
        (d_filter_and_predict d stringX stringY epsilon invepsilon morph
           axs ays e_symbols L)
|}.

(** A downstream that accepts every table and reports [n] states. *)
Definition constant_downstream (n : nat) : Downstream := {|
  DEpsilon := unit;
  DInvepsilon := nat;
  DMorphs := unit;
  DFilteredStates := unit;
  DFilteredProbs := unit;
  DPredicted := unit;
  DExn := unit;
  d_len_invepsilon := fun k => k;
  d_run_transCSSR := fun _ _ _ _ _ _ _ _ => inr (tt, n, tt);
  d_print_morph_by_states := fun _ => inr tt;
  d_filter_and_predict := fun _ _ _ _ _ _ _ _ _ => inr (tt, tt, tt)
|}.
(* ================================================================== *)
(** * Properties of the built-ins *)
(* ================================================================== *)

Section PyFacts.

Import Py Demo.

Lemma rstrip_snoc_space s c :
  isspace c = true -> rstrip (s ++ String c "") = rstrip s.
Proof.
  intros Hc. induction s as [|a s IH]; simpl.
  - now rewrite Hc.
  - now rewrite IH.
Qed.

Lemma lstrip_all_space s : all_space s = true -> lstrip s = "".
Proof.
  induction s as [|a s IH]; simpl; auto.
  intros H. apply andb_prop in H as [Ha Hs]. now rewrite Ha, IH.
Qed.

Lemma lstrip_snoc s c :
  all_space s = false -> lstrip (s ++ String c "") = lstrip s ++ String c "".
Proof.
  induction s as [|a s IH]; simpl; try discriminate.
  destruct (isspace a); simpl; auto.
Qed.

Lemma all_space_snoc s c :
  all_space (s ++ String c "") = all_space s && isspace c.
Proof.
  induction s as [|a s IH]; simpl.
  - now rewrite andb_true_r.
  - now rewrite IH, andb_assoc.
Qed.

Lemma strip_snoc_space s c :
  isspace c = true -> strip (s ++ String c "") = strip s.
Proof.
  intros Hc. unfold strip. destruct (all_space s) eqn:Hs.
  - rewrite !lstrip_all_space; auto.
    rewrite all_space_snoc, Hs, Hc. reflexivity.
  - rewrite lstrip_snoc by assumption. now apply rstrip_snoc_space.
Qed.

Lemma readline_cases content :
  readline content = first_line content \/
  readline content = first_line content ++ String newline "".
Proof.
  induction content as [|c r IH]; simpl; auto.
  destruct (Ascii.eqb c newline) eqn:E.
  - apply Ascii.eqb_eq in E. subst. now right.
  - destruct IH as [-> | ->]; auto.
Qed.

Lemma strip_readline content :
  strip (readline content) = strip (first_line content).
Proof.
  destruct (readline_cases content) as [-> | ->]; auto.
  now apply strip_snoc_space.
Qed.

Lemma first_line_app line rest :
  no_newline line = true ->
  first_line (line ++ String newline rest) = line.
Proof.
  induction line as [|c r IH]; simpl.
  - reflexivity.
  - intros H. apply andb_prop in H as [Hc Hr].
    apply negb_true_iff in Hc. rewrite Hc. now rewrite IH.
Qed.

Lemma first_line_no_newline line :
  no_newline line = true -> first_line line = line.
Proof.
  induction line as [|c r IH]; simpl; auto.
  intros H. apply andb_prop in H as [Hc Hr].
  apply negb_true_iff in Hc. rewrite Hc. now rewrite IH.
Qed.

(** [lstrip] removes a whitespace prefix and stops at the first other
    character. *)
Lemma lstrip_split s :
  exists l, s = l ++ lstrip s /\ all_space l = true /\
            (forall c r, lstrip s = String c r -> isspace c = false).
Proof.
  induction s as [|a s (l & E & Hl & Hf)]; simpl.
  - exists "". repeat split; auto. discriminate.
  - destruct (isspace a) eqn:Ha.
    + exists (String a l). simpl. rewrite Ha, Hl. repeat split; auto.
      now rewrite <- E.
    + exists "". repeat split; auto. intros c r [= <- _]. assumption.
Qed.

(** [rstrip] removes a whitespace suffix and stops at the last other
    character; it keeps the first character of what is left. *)
Lemma rstrip_split s :
  exists r, s = rstrip s ++ r /\ all_space r = true /\
            (forall c, last_char (rstrip s) = Some c -> isspace c = false).
Proof.
  induction s as [|a s (r & E & Hr & Hlast)]; simpl.
  - exists "". split; [reflexivity|]. split; [reflexivity|]. discriminate.
  - destruct (rstrip s) as [|b t] eqn:Et.
    + simpl in E. destruct (isspace a) eqn:Ha.
      * exists (String a r). simpl. rewrite Ha, Hr.
        split; [now rewrite <- E|]. split; [reflexivity|]. discriminate.
      * exists r. simpl.
        split; [now rewrite <- E|]. split; [assumption|].
        intros c [= <-]. assumption.
    + exists r. split; [|split; [assumption|]].
      * simpl. f_equal. exact E.
      * intros c Hc. apply Hlast. exact Hc.
Qed.

Lemma rstrip_head s c r :
  rstrip s = String c r -> exists r', s = String c r'.
Proof.
  destruct s as [|a s]; simpl; try discriminate.
  destruct (rstrip s).
  - destruct (isspace a); try discriminate. intros [= <- _]. eauto.
  - intros [= <- _]. eauto.
Qed.

(** [strip] meets the description "leading and trailing whitespace
    stripped". *)
Lemma strip_stripped_of line : stripped_of line (strip line).
Proof.
  unfold strip.
  destruct (lstrip_split line) as (l & El & Hl & Hfirst).
  destruct (rstrip_split (lstrip line)) as (r & Er & Hr & Hlast).
  exists l, r. repeat split; auto.
  - rewrite <- Er. exact El.
  - intros c t Hc. destruct (rstrip_head _ _ _ Hc) as (t' & Ht').
    exact (Hfirst _ _ Ht').
Qed.

Lemma lstrip_app_space l t :
  all_space l = true -> lstrip (l ++ t) = lstrip t.
Proof.
  induction l as [|a l IH]; simpl; auto.
  intros H. apply andb_prop in H as [Ha Hl]. now rewrite Ha, IH.
Qed.

Lemma rstrip_all_space r : all_space r = true -> rstrip r = "".
Proof.
  induction r as [|a r IH]; simpl; auto.
  intros H. apply andb_prop in H as [Ha Hr]. now rewrite IH, Ha.
Qed.

Lemma rstrip_app_space s r :
  all_space r = true -> rstrip (s ++ r) = rstrip s.
Proof.
  intros Hr. induction s as [|a s IH]; simpl.
  - now apply rstrip_all_space.
  - now rewrite IH.
Qed.

Lemma rstrip_fixed s :
  (forall c, last_char s = Some c -> isspace c = false) -> rstrip s = s.
Proof.
  induction s as [|a s IH]; simpl; auto.
  destruct s as [|b t].
  - intros H. simpl. now rewrite (H a eq_refl).
  - intros H. rewrite IH by exact H. reflexivity.
Qed.

(** The description determines the result: whatever is [line] with
    leading and trailing whitespace stripped is [strip line]. *)
Lemma stripped_of_strip line s : stripped_of line s -> s = strip line.
Proof.
  intros (l & r & -> & Hl & Hr & Hfirst & Hlast). unfold strip.
  rewrite lstrip_app_space by assumption.
  destruct s as [|c t].
  - simpl. rewrite lstrip_all_space by assumption. reflexivity.
  - simpl. rewrite (Hfirst c t eq_refl).
    change (String c (t ++ r)) with (String c t ++ r).
    rewrite rstrip_app_space by assumption.
    symmetry. now apply rstrip_fixed.
Qed.

Lemma append_cancel_l (a b c : string) : a ++ b = a ++ c -> b = c.
Proof. induction a as [|x a IH]; simpl; [auto|]. intros [= H]. auto. Qed.

Lemma length_repeat_zero n : String.length (repeat_str "0" n) = n.
Proof. induction n; simpl; auto. Qed.

Lemma repeat_zero_chars n c :
  In c (list_ascii_of_string (repeat_str "0" n)) -> c = "0"%char.
Proof.
  induction n as [|n IH]; simpl; [tauto|]. intros [<-|H]; auto.
Qed.

(** ** [itertools.product] *)

Lemma product_length {A B} (xs : list A) (ys : list B) :
  List.length (product xs ys) = List.length xs * List.length ys.
Proof.
  induction xs as [|x xs IH]; simpl; auto.
  now rewrite length_app, length_map, IH.
Qed.

Lemma product_In {A B} (xs : list A) (ys : list B) x y :
  In (x, y) (product xs ys) <-> In x xs /\ In y ys.
Proof.
  induction xs as [|a xs IH]; simpl; [tauto|].
  rewrite in_app_iff, in_map_iff, IH. split.
  - intros [(b & [= <- <-] & Hb) | [Hx Hy]]; auto.
  - intros [[<- | Hx] Hy]; [left; eauto | right; auto].
Qed.

(** The pair of the [i]-th input symbol and the [j]-th output symbol sits
    at index [i * |ys| + j]: the order is lexicographic. *)
Lemma product_nth {A B} (xs : list A) (ys : list B) i j x y :
  nth_error xs i = Some x -> nth_error ys j = Some y ->
  nth_error (product xs ys) (i * List.length ys + j) = Some (x, y).
Proof.
  revert i. induction xs as [|a xs IH]; intros i Hx Hy.
  - destruct i; discriminate.
  - assert (Hj : j < List.length ys)
      by (apply nth_error_Some; congruence).
    destruct i as [|i]; simpl in *.
    + injection Hx as ->.
      rewrite nth_error_app1 by (now rewrite length_map).
      now apply map_nth_error.
    + rewrite nth_error_app2 by (rewrite length_map; lia).
      rewrite length_map.
      replace (List.length ys + i * List.length ys + j - List.length ys)
        with (i * List.length ys + j) by lia.
      now apply IH.
Qed.

End PyFacts.
(* ================================================================== *)
(** * The script, step by step *)
(* ================================================================== *)

Section ScriptFacts.

Import Demo.

Variable lib : Library.

Lemma fmt_data_path p n :
  fmt lib "data/{}{}.dat" [p; n] = ret lib (data_path p n).
Proof. reflexivity. Qed.

Lemma fmt_dot_cmd x y :
  fmt lib "open transCSSR_results/{}+{}.dot" [x; y] = ret lib (dot_cmd x y).
Proof. reflexivity. Qed.

Lemma fmt_dat_results_cmd x y :
  fmt lib "open transCSSR_results/{}+{}.dat_results" [x; y]
  = ret lib (dat_results_cmd x y).
Proof. reflexivity. Qed.

Lemma fmt_states_msg n :
  fmt lib "The epsilon-transducer has {} states." [Py.str_of_nat n]
  = ret lib (states_msg n).
Proof. reflexivity. Qed.

(** The loading block as a case analysis on the file system. *)
Lemma load_data_eq cfg fs :
  load_data lib cfg fs =
  let pathY := data_path (data_prefix cfg) (Yt_name cfg) in
  let pathX := data_path (data_prefix cfg) (Xt_name cfg) in
  match fs pathY with
  | None => ([EvOpen pathY], inl (IOError pathY))
  | Some contentY =>
      let stringY := Py.strip (Py.readline contentY) in
      if Xt_name cfg =? "" then
        ([EvOpen pathY],
         inr (Py.repeat_str "0" (String.length stringY), stringY))
      else
        match fs pathX with
        | None => ([EvOpen pathY; EvOpen pathX], inl (IOError pathX))
        | Some contentX =>
            ([EvOpen pathY; EvOpen pathX],
             inr (Py.strip (Py.readline contentX), stringY))
        end
  end.
Proof.
  unfold load_data. rewrite !fmt_data_path. cbn [bind ret].
  unfold open_readline.
  destruct (fs (data_path (data_prefix cfg) (Yt_name cfg))); [|reflexivity].
  cbn [bind ret emit app].
  destruct (Xt_name cfg =? ""); [reflexivity|].
  cbn [bind ret emit app].
  destruct (fs (data_path (data_prefix cfg) (Xt_name cfg))); reflexivity.
Qed.

(** Everything after the loading block as a case analysis on what the
    imported functions return. *)
Lemma train_and_filter_eq cfg sX sY :
  train_and_filter lib cfg sX sY =
  if Nat.eqb (String.length sX) (String.length sY) then
    let L := L_max cfg in
    let ev_est := EvEstimate sX sY L in
    match estimate_predictive_distributions lib sX sY L with
    | inl e => ([ev_est], inl (LibraryError e))
    | inr (marg, fut) =>
        let ev_run :=
          EvRunTransCSSR marg fut L (axs cfg) (ays cfg) (e_symbols cfg)
            (Xt_name cfg) (Yt_name cfg) in
        match run_transCSSR lib marg fut L (axs cfg) (ays cfg)
                (e_symbols cfg) (Xt_name cfg) (Yt_name cfg) with
        | inl e => ([ev_est; ev_run], inl (LibraryError e))
        | inr (epsilon, invepsilon, morph) =>
            let pre :=
              (ev_est :: ev_run :: report_events cfg invepsilon morph)%list in
            match print_morph_by_states lib morph with
            | inl e => (pre, inl (LibraryError e))
            | inr _ =>
                ((pre ++ [EvFilter sX sY epsilon invepsilon morph
                            (axs cfg) (ays cfg) (e_symbols cfg) L])%list,
                 match filter_and_predict lib sX sY epsilon invepsilon morph
                         (axs cfg) (ays cfg) (e_symbols cfg) L with
                 | inl e => inl (LibraryError e)
                 | inr v => inr v
                 end)
            end
        end
    end
  else ([], inl (AssertionError length_msg)).
Proof.
  unfold train_and_filter.
  destruct (Nat.eqb (String.length sX) (String.length sY)); [|reflexivity].
  cbn [assert bind ret app call].
  destruct (estimate_predictive_distributions lib sX sY (L_max cfg))
    as [e|[marg fut]]; [reflexivity|].
  cbn [bind app call].
  destruct (run_transCSSR lib marg fut (L_max cfg) (axs cfg) (ays cfg)
              (e_symbols cfg) (Xt_name cfg) (Yt_name cfg))
    as [e|[[epsilon invepsilon] morph]]; [reflexivity|].
  rewrite fmt_states_msg, fmt_dot_cmd, fmt_dat_results_cmd.
  unfold report_events, print, os_system.
  destruct (Nat.ltb (len_invepsilon lib invepsilon) 30);
    cbn [bind ret emit app call];
    destruct (print_morph_by_states lib morph) as [e|[]]; reflexivity.
Qed.

Lemma script_eq cfg fs :
  script lib cfg fs =
  match load_data lib cfg fs with
  | (t, inl e) => (t, inl e)
  | (t, inr (sX, sY)) =>
      ((t ++ fst (train_and_filter lib cfg sX sY))%list,
       snd (train_and_filter lib cfg sX sY))
  end.
Proof.
  unfold script, bind.
  destruct (load_data lib cfg fs) as [t [e|[sX sY]]]; [reflexivity|].
  destruct (train_and_filter lib cfg sX sY); reflexivity.
Qed.

End ScriptFacts.
Section ScriptClaims.

Import Demo.

Variable lib : Library.

Lemma load_data_only_opens cfg fs tr r :
  load_data lib cfg fs = (tr, r) -> only_opens tr.
Proof.
  rewrite load_data_eq. cbv zeta.
  destruct (fs (data_path (data_prefix cfg) (Yt_name cfg))).
  - destruct (Xt_name cfg =? "").
    + intros [= <- _] e [<-|[]]. eauto.
    + destruct (fs (data_path (data_prefix cfg) (Xt_name cfg)));
        intros [= <- _] e [<-|[<-|[]]]; eauto.
  - intros [= <- _] e [<-|[]]. eauto.
Qed.

Lemma only_opens_calls (tr : list (Event lib)) :
  only_opens tr -> calls tr = [].
Proof.
  induction tr as [|e tr IH]; intros H; [reflexivity|].
  destruct (H e (or_introl eq_refl)) as [p ->]. unfold calls. simpl.
  apply IH. intros e' He'. apply H. now right.
Qed.

(** With sequences of one length the assertion passes: the event after
    the file openings is the call of the estimator, and whatever stops
    the run later was raised inside an imported function. *)
Lemma script_equal_lengths cfg fs tr0 sX sY :
  load_data lib cfg fs = (tr0, inr (sX, sY)) ->
  String.length sX = String.length sY ->
  exists tr r,
    script lib cfg fs
    = ((tr0 ++ EvEstimate sX sY (L_max cfg) :: tr)%list, r) /\
    forall e, r = inl e -> exists le, e = LibraryError le.
Proof.
  intros Hload Heq.
  rewrite script_eq, Hload, train_and_filter_eq.
  apply Nat.eqb_eq in Heq. rewrite Heq. cbv zeta.
  destruct (estimate_predictive_distributions lib sX sY (L_max cfg))
    as [e|[marg fut]];
    [simpl; eexists _, _; split; [reflexivity|]; intros ? [= <-]; eauto|].
  destruct (run_transCSSR lib marg fut (L_max cfg) (axs cfg) (ays cfg)
              (e_symbols cfg) (Xt_name cfg) (Yt_name cfg))
    as [e|[[epsilon invepsilon] morph]];
    [simpl; eexists _, _; split; [reflexivity|]; intros ? [= <-]; eauto|].
  destruct (print_morph_by_states lib morph) as [e|[]];
    [simpl; eexists _, _; split; [reflexivity|]; intros ? [= <-]; eauto|].
  destruct (filter_and_predict lib sX sY epsilon invepsilon morph
              (axs cfg) (ays cfg) (e_symbols cfg) (L_max cfg)) as [e|v];
    simpl; eexists _, _; (split; [reflexivity|]);
    [intros ? [= <-]; eauto | discriminate].
Qed.

(** C1: once the two sequences are loaded, a difference of their lengths
    stops the run with the script's assertion error (the DataError of the
    design) before any imported function is called; with equal lengths the
    assertion passes and the next event is the call of
    [estimate_predictive_distributions] on the two sequences. *)
Theorem C1_length_assertion_before_estimation cfg fs tr0 sX sY :
  load_data lib cfg fs = (tr0, inr (sX, sY)) ->
  (String.length sX <> String.length sY ->
     script lib cfg fs = (tr0, inl (AssertionError length_msg)) /\
     calls tr0 = [])
  /\
  (String.length sX = String.length sY ->
     exists tr r,
       script lib cfg fs
       = ((tr0 ++ EvEstimate sX sY (L_max cfg) :: tr)%list, r) /\
       calls tr0 = [] /\
       forall msg, r <> inl (AssertionError msg)).
Proof.
  intros Hload.
  pose proof (only_opens_calls _ (load_data_only_opens _ _ _ _ Hload)) as Hno.
  split.
  - intros Hne. split; [|exact Hno].
    rewrite script_eq, Hload, train_and_filter_eq.
    apply Nat.eqb_neq in Hne. rewrite Hne. simpl.
    now rewrite app_nil_r.
  - intros Heq.
    destruct (script_equal_lengths _ _ _ _ _ Hload Heq) as (tr & r & Hrun & Hr).
    exists tr, r. repeat split; auto.
    intros msg Hmsg. destruct (Hr _ Hmsg) as [le Hle]. discriminate Hle.
Qed.

(** The script's own assertion fails exactly when the loaded sequences
    differ in length. *)
Lemma script_assertion cfg fs tr msg :
  script lib cfg fs = (tr, inl (AssertionError msg)) ->
  exists sX sY, load_data lib cfg fs = (tr, inr (sX, sY)) /\
                String.length sX <> String.length sY.
Proof.
  rewrite script_eq.
  destruct (load_data lib cfg fs) as [t [e|[sX sY]]] eqn:Hload.
  - intros [= -> ->]. revert Hload. rewrite load_data_eq. cbv zeta.
    destruct (fs (data_path (data_prefix cfg) (Yt_name cfg)));
      [|discriminate].
    destruct (Xt_name cfg =? ""); [discriminate|].
    destruct (fs (data_path (data_prefix cfg) (Xt_name cfg))); discriminate.
  - rewrite train_and_filter_eq.
    destruct (Nat.eqb (String.length sX) (String.length sY)) eqn:E.
    + cbv zeta.
      destruct (estimate_predictive_distributions lib sX sY (L_max cfg))
        as [e|[marg fut]]; [discriminate|].
      destruct (run_transCSSR lib marg fut (L_max cfg) (axs cfg) (ays cfg)
                  (e_symbols cfg) (Xt_name cfg) (Yt_name cfg))
        as [e|[[epsilon invepsilon] morph]]; [discriminate|].
      destruct (print_morph_by_states lib morph) as [e|[]]; [discriminate|].
      destruct (filter_and_predict lib sX sY epsilon invepsilon morph
                  (axs cfg) (ays cfg) (e_symbols cfg) (L_max cfg));
        discriminate.
    + simpl. rewrite app_nil_r. intros [= <- _].
      exists sX, sY. split; auto. now apply Nat.eqb_neq.
Qed.

(** C8: with an empty input-process name the input sequence is the
    character '0' repeated len(stringY) times, so every input symbol is
    '0', the two lengths agree, no input file is opened, and the
    equal-length assertion cannot fail. *)
Theorem C8_synthesized_input cfg fs :
  Xt_name cfg = "" ->
  (forall tr0 sX sY,
     load_data lib cfg fs = (tr0, inr (sX, sY)) ->
     sX = Py.repeat_str "0" (String.length sY) /\
     (forall c, In c (list_ascii_of_string sX) -> c = "0"%char) /\
     String.length sX = String.length sY /\
     tr0 = [EvOpen (data_path (data_prefix cfg) (Yt_name cfg))])
  /\
  (forall tr msg, script lib cfg fs <> (tr, inl (AssertionError msg))).
Proof.
  intros HX.
  assert (Hload : forall tr0 sX sY,
             load_data lib cfg fs = (tr0, inr (sX, sY)) ->
             sX = Py.repeat_str "0" (String.length sY) /\
             tr0 = [EvOpen (data_path (data_prefix cfg) (Yt_name cfg))]).
  { intros tr0 sX sY. rewrite load_data_eq, HX. cbv zeta.
    destruct (fs (data_path (data_prefix cfg) (Yt_name cfg)));
      [|discriminate].
    simpl. intros [= <- <- <-]. auto. }
  split.
  - intros tr0 sX sY H. destruct (Hload _ _ _ H) as [-> ->].
    repeat split; auto.
    + intros c. apply repeat_zero_chars.
    + apply length_repeat_zero.
  - intros tr msg H. apply script_assertion in H as (sX & sY & H & Hne).
    destruct (Hload _ _ _ H) as [-> _]. apply Hne, length_repeat_zero.
Qed.

(** C10: each loaded sequence is the first line of its file with leading
    and trailing whitespace stripped, and nothing else of the file
    matters: two file systems whose files have the same first lines load
    the same data. *)
Theorem C10_first_line_stripped cfg fs tr0 sX sY :
  load_data lib cfg fs = (tr0, inr (sX, sY)) ->
  (exists contentY,
     fs (data_path (data_prefix cfg) (Yt_name cfg)) = Some contentY /\
     forall s, stripped_of (first_line contentY) s <-> s = sY)
  /\
  (Xt_name cfg <> "" ->
   exists contentX,
     fs (data_path (data_prefix cfg) (Xt_name cfg)) = Some contentX /\
     forall s, stripped_of (first_line contentX) s <-> s = sX)
  /\
  (forall fs' : FileSystem,
     (forall p, option_map first_line (fs' p) = option_map first_line (fs p)) ->
     load_data lib cfg fs' = load_data lib cfg fs).
Proof.
  assert (Hstrip : forall content s,
             stripped_of (first_line content) s
             <-> s = Py.strip (Py.readline content)).
  { intros content s. rewrite strip_readline. split.
    - apply stripped_of_strip.
    - intros ->. apply strip_stripped_of. }
  intros Hload. split; [|split].
  - revert Hload. rewrite load_data_eq. cbv zeta.
    destruct (fs (data_path (data_prefix cfg) (Yt_name cfg))) as [cY|];
      [|discriminate].
    intros Hload. exists cY. split; auto. intros s. rewrite Hstrip.
    destruct (Xt_name cfg =? "").
    + injection Hload as _ _ <-. tauto.
    + destruct (fs (data_path (data_prefix cfg) (Xt_name cfg)));
        [|discriminate].
      injection Hload as _ _ <-. tauto.
  - intros HX. apply String.eqb_neq in HX.
    revert Hload. rewrite load_data_eq, HX. cbv zeta.
    destruct (fs (data_path (data_prefix cfg) (Yt_name cfg))) as [cY|];
      [|discriminate].
    destruct (fs (data_path (data_prefix cfg) (Xt_name cfg))) as [cX|];
      [|discriminate].
    intros [= _ <- _]. exists cX. split; auto.
  - intros fs' Hfs. rewrite !load_data_eq. cbv zeta.
    pose proof (Hfs (data_path (data_prefix cfg) (Yt_name cfg))) as HY.
    pose proof (Hfs (data_path (data_prefix cfg) (Xt_name cfg))) as HX.
    destruct (fs' (data_path (data_prefix cfg) (Yt_name cfg))) as [cY'|],
             (fs (data_path (data_prefix cfg) (Yt_name cfg))) as [cY|];
      try discriminate; [|reflexivity].
    injection HY as HY. rewrite !strip_readline, HY.
    destruct (Xt_name cfg =? ""); [reflexivity|].
    destruct (fs' (data_path (data_prefix cfg) (Xt_name cfg))) as [cX'|],
             (fs (data_path (data_prefix cfg) (Xt_name cfg))) as [cX|];
      try discriminate; [|reflexivity].
    injection HX as HX. now rewrite !strip_readline, HX.
Qed.

Lemma only_opens_stages (tr : list (Event lib)) :
  only_opens tr -> stages tr = [].
Proof.
  induction tr as [|e tr IH]; intros H; [reflexivity|].
  destruct (H e (or_introl eq_refl)) as [p ->]. unfold stages. simpl.
  apply IH. intros e' He'. apply H. now right.
Qed.

Lemma stages_app (t u : list (Event lib)) :
  stages (t ++ u) = (stages t ++ stages u)%list.
Proof. apply flat_map_app. Qed.

(** An event of a trace that starts with file openings is either one of
    the openings or an event of the rest. *)
Ltac split_trace Hopen :=
  match goal with
  | H : In _ (_ ++ _) |- _ =>
      apply in_app_or in H as [H|H];
      [ destruct (Hopen _ H) as [? ?]; discriminate
      | simpl in H; intuition (try discriminate) ]
  | H : In _ _ |- _ => destruct (Hopen _ H) as [? ?]; discriminate
  end.

(** C5: the stages run in the order estimation, inference, filtering, and
    each one is fed what the previous one produced: estimation receives
    the two loaded streams, [run_transCSSR] the two tables estimation
    returned, [filter_and_predict] the transducer [run_transCSSR]
    returned; the script's result is the trajectories of that filtering
    call. *)
Theorem C5_pipeline_order cfg fs tr0 sX sY :
  load_data lib cfg fs = (tr0, inr (sX, sY)) ->
  let tr := fst (script lib cfg fs) in
  let L := L_max cfg in
  let trained marg fut epsilon invepsilon morph :=
    estimate_predictive_distributions lib sX sY L = inr (marg, fut) /\
    run_transCSSR lib marg fut L (axs cfg) (ays cfg) (e_symbols cfg)
      (Xt_name cfg) (Yt_name cfg) = inr (epsilon, invepsilon, morph) in
  (exists n, stages tr = firstn n [Estimation; Inference; Filtering])
  /\
  (forall sx sy l, In (EvEstimate sx sy l) tr -> sx = sX /\ sy = sY /\ l = L)
  /\
  (forall marg fut l a b es xn yn,
     In (EvRunTransCSSR marg fut l a b es xn yn) tr ->
     estimate_predictive_distributions lib sX sY L = inr (marg, fut))
  /\
  (forall sx sy epsilon invepsilon morph a b es l,
     In (EvFilter sx sy epsilon invepsilon morph a b es l) tr ->
     sx = sX /\ sy = sY /\
     exists marg fut, trained marg fut epsilon invepsilon morph)
  /\
  (forall v, snd (script lib cfg fs) = inr v ->
     exists marg fut epsilon invepsilon morph,
       trained marg fut epsilon invepsilon morph /\
       filter_and_predict lib sX sY epsilon invepsilon morph
         (axs cfg) (ays cfg) (e_symbols cfg) L = inr v /\
       stages tr = [Estimation; Inference; Filtering]).
Proof.
  intros Hload.
  pose proof (load_data_only_opens _ _ _ _ Hload) as Hopen.
  pose proof (only_opens_stages _ Hopen) as Hst.
  rewrite script_eq, Hload, train_and_filter_eq. cbv zeta.
  destruct (Nat.eqb (String.length sX) (String.length sY)).
  2:{ simpl. rewrite app_nil_r, Hst. repeat split;
        try (intros; split_trace Hopen);
        try discriminate.
      now exists 0. }
  destruct (estimate_predictive_distributions lib sX sY (L_max cfg))
    as [e|[marg fut]].
  { simpl. rewrite stages_app, Hst. repeat split;
      try (intros; split_trace Hopen; congruence); try discriminate.
    now exists 1. }
  destruct (run_transCSSR lib marg fut (L_max cfg) (axs cfg) (ays cfg)
              (e_symbols cfg) (Xt_name cfg) (Yt_name cfg))
    as [e|[[epsilon invepsilon] morph]] eqn:Hrun.
  { simpl. rewrite stages_app, Hst. repeat split;
      try (intros; split_trace Hopen; congruence); try discriminate.
    now exists 2. }
  unfold report_events.
  destruct (print_morph_by_states lib morph) as [e|[]].
  { simpl. rewrite stages_app, Hst.
    destruct (Nat.ltb (len_invepsilon lib invepsilon) 30);
      (repeat split;
        try (intros; split_trace Hopen; congruence); try discriminate;
        now exists 2). }
  simpl. rewrite stages_app, Hst.
  destruct (Nat.ltb (len_invepsilon lib invepsilon) 30).
  - repeat split; try (intros; split_trace Hopen; congruence);
      try (now exists 3).
    + intros; split_trace Hopen.
      match goal with H : EvFilter _ _ _ _ _ _ _ _ _ = _ |- _ =>
        injection H as <- <- <- <- <- end. eauto.
    + intros v Hv.
      destruct (filter_and_predict lib sX sY epsilon invepsilon morph
                  (axs cfg) (ays cfg) (e_symbols cfg) (L_max cfg))
        as [e|v'] eqn:Hf; [discriminate|].
      injection Hv as <-. exists marg, fut, epsilon, invepsilon, morph. auto.
  - repeat split; try (intros; split_trace Hopen; congruence);
      try (now exists 3).
    + intros; split_trace Hopen.
      match goal with H : EvFilter _ _ _ _ _ _ _ _ _ = _ |- _ =>
        injection H as <- <- <- <- <- end. eauto.
    + intros v Hv.
      destruct (filter_and_predict lib sX sY epsilon invepsilon morph
                  (axs cfg) (ays cfg) (e_symbols cfg) (L_max cfg))
        as [e|v'] eqn:Hf; [discriminate|].
      injection Hv as <-. exists marg, fut, epsilon, invepsilon, morph. auto.
Qed.

Lemma dot_cmd_neq_dat_results_cmd x y x' y' :
  dot_cmd x y = dat_results_cmd x' y' -> x ++ "+" ++ y ++ ".dot" = x' ++ "+" ++ y' ++ ".dat_results".
Proof. unfold dot_cmd, dat_results_cmd. apply append_cancel_l. Qed.

Lemma dot_cmd_not_dat_results x y : dot_cmd x y <> dat_results_cmd x y.
Proof.
  intros H. apply dot_cmd_neq_dat_results_cmd in H.
  apply append_cancel_l in H. apply (append_cancel_l "+") in H.
  apply append_cancel_l in H. discriminate.
Qed.

Lemma warning_not_states_msg n : warning_msg <> states_msg n.
Proof. discriminate. Qed.

Lemma EvSystem_inj (a b : string) :
  @EvSystem lib a = EvSystem b -> a = b.
Proof. now intros [= ->]. Qed.

Lemma EvPrint_inj (a b : string) :
  @EvPrint lib a = EvPrint b -> a = b.
Proof. now intros [= ->]. Qed.

(** C9: after training, the line with the state count is printed; the
    .dot file is opened exactly when len(invepsilon) < 30; otherwise the
    warning is printed, a fixed line that still holds the placeholder
    "{}"; the .dat_results file is opened next in both cases. *)
Theorem C9_dot_viewer_branch cfg fs tr0 sX sY marg fut epsilon invepsilon morph :
  load_data lib cfg fs = (tr0, inr (sX, sY)) ->
  String.length sX = String.length sY ->
  estimate_predictive_distributions lib sX sY (L_max cfg) = inr (marg, fut) ->
  run_transCSSR lib marg fut (L_max cfg) (axs cfg) (ays cfg) (e_symbols cfg)
    (Xt_name cfg) (Yt_name cfg) = inr (epsilon, invepsilon, morph) ->
  let tr := fst (script lib cfg fs) in
  let n := len_invepsilon lib invepsilon in
  let open_dot := EvSystem (dot_cmd (Xt_name cfg) (Yt_name cfg)) in
  let open_dat := EvSystem (dat_results_cmd (Xt_name cfg) (Yt_name cfg)) in
  let warn := EvPrint warning_msg in
  (exists before after,
     tr = (before
             ++ [EvPrint (states_msg n);
                 if Nat.ltb n 30 then open_dot else warn;
                 open_dat]
             ++ after)%list /\
     (forall e, In e before \/ In e after ->
                e <> open_dot /\ e <> warn /\ e <> open_dat))
  /\ (In open_dot tr <-> n < 30)
  /\ (In warn tr <-> 30 <= n)
  /\ In open_dat tr
  /\ (exists a b, warning_msg = a ++ "{}" ++ b).
Proof.
  intros Hload Hlen Hest Hrun tr n open_dot open_dat warn.
  pose proof (load_data_only_opens _ _ _ _ Hload) as Hopen.
  set (before := (tr0 ++ [EvEstimate sX sY (L_max cfg);
                          EvRunTransCSSR marg fut (L_max cfg) (axs cfg)
                            (ays cfg) (e_symbols cfg) (Xt_name cfg)
                            (Yt_name cfg)])%list).
  assert (Hbefore : forall e, In e before ->
                      e <> open_dot /\ e <> warn /\ e <> open_dat).
  { intros e He. apply in_app_or in He as [He|He].
    - destruct (Hopen _ He) as [p ->]. repeat split; discriminate.
    - simpl in He. destruct He as [<-|[<-|[]]]; repeat split; discriminate. }
  assert (Htr : exists after,
             tr = (before
                     ++ [EvPrint (states_msg n);
                         if Nat.ltb n 30 then open_dot else warn;
                         open_dat]
                     ++ after)%list /\
             (forall e, In e after -> is_call e = true)).
  { subst tr before. rewrite script_eq, Hload, train_and_filter_eq.
    apply Nat.eqb_eq in Hlen. rewrite Hlen. cbv zeta.
    rewrite Hest, Hrun. unfold report_events. fold n.
    destruct (print_morph_by_states lib morph) as [e|[]]; simpl.
    - exists [EvPrintMorph morph]. rewrite <- app_assoc. split; [reflexivity|].
      intros e' [<-|[]]. reflexivity.
    - eexists [EvPrintMorph morph; _].
      rewrite <- !app_assoc. split; [reflexivity|].
      intros e' [<-|[<-|[]]]; reflexivity. }
  destruct Htr as (after & Htr & Hafter).
  assert (Hafter' : forall e, In e after ->
                      e <> open_dot /\ e <> warn /\ e <> open_dat).
  { intros e He. apply Hafter in He.
    repeat split; intros ->; discriminate. }
  assert (Hin : forall e, In e tr <->
                  In e before \/ e = EvPrint (states_msg n) \/
                  e = (if Nat.ltb n 30 then open_dot else warn) \/
                  e = open_dat \/ In e after).
  { intros e. rewrite Htr, !in_app_iff. simpl. intuition auto. }
  split; [|split; [|split; [|split]]].
  - exists before, after. split; [exact Htr|].
    intros e [He|He]; auto.
  - rewrite Hin. destruct (Nat.ltb n 30) eqn:E.
    + apply Nat.ltb_lt in E. split; auto.
    + apply Nat.ltb_ge in E. split; [|lia].
      intros [H|[H|[H|[H|H]]]].
      * now apply Hbefore in H.
      * discriminate.
      * discriminate.
      * apply EvSystem_inj in H. now apply dot_cmd_not_dat_results in H.
      * now apply Hafter' in H.
  - rewrite Hin. destruct (Nat.ltb n 30) eqn:E.
    + apply Nat.ltb_lt in E. split; [|lia].
      intros [H|[H|[H|[H|H]]]].
      * now apply Hbefore in H.
      * apply EvPrint_inj in H. now apply warning_not_states_msg in H.
      * discriminate.
      * discriminate.
      * now apply Hafter' in H.
    + apply Nat.ltb_ge in E. split; auto.
  - rewrite Hin. auto.
  - exists "Warning: The epsilon-transducer has ",
           " states, so we will not open the dot file.".
    reflexivity.
Qed.

End ScriptClaims.

(** C7: [e_symbols] holds a pair (x, y) exactly when x is an input symbol
    and y an output symbol, it has |axs| * |ays| entries, and the pair of
    the i-th input symbol and the j-th output symbol is its entry
    i * |ays| + j, which is the order of [itertools.product]. *)
Theorem C7_e_symbols_all_pairs (cfg : Config) :
  (forall x y, In (x, y) (Demo.e_symbols cfg) <-> In x (axs cfg) /\ In y (ays cfg))
  /\ List.length (Demo.e_symbols cfg)
     = List.length (axs cfg) * List.length (ays cfg)
  /\ (forall i j x y,
        nth_error (axs cfg) i = Some x -> nth_error (ays cfg) j = Some y ->
        nth_error (Demo.e_symbols cfg) (i * List.length (ays cfg) + j)
        = Some (x, y))
  /\ Demo.e_symbols demo_config
     = [("0", "0"); ("0", "1"); ("1", "0"); ("1", "1"); ("2", "0"); ("2", "1")].
Proof.
  unfold Demo.e_symbols. split; [|split; [|split]].
  - intros x y. apply product_In.
  - apply product_length.
  - intros i j x y. apply product_nth.
  - reflexivity.
Qed.

(* ================================================================== *)
(** * The FilterPredictor and the trained transducer *)
(* ================================================================== *)

Section CoreFacts.

Import Core.

Context {X Y : Type}.
Context (X_eq_dec : forall a b : X, {a = b} + {a <> b}).
Context (Y_eq_dec : forall a b : Y, {a = b} + {a <> b}).

Local Open Scope list_scope.


(** ** One emission per position *)

Lemma run_length (m : @Transducer X Y) L q read (data : @History X Y) :
  List.length (run X_eq_dec Y_eq_dec m L q read data) = List.length data.
Proof.
  revert q read. induction data as [|a rest IH]; intros q read; simpl; auto.
Qed.

(** Position [t] of a run carries the state the machine is in after [t]
    symbols and the prediction made there for the next input symbol. *)
Lemma run_nth (m : @Transducer X Y) L q read (data : @History X Y) t a :
  nth_error data t = Some a ->
  nth_error (run X_eq_dec Y_eq_dec m L q read data) t
  = Some (state_after X_eq_dec Y_eq_dec m L q read data t,
          predict m (state_after X_eq_dec Y_eq_dec m L q read data t) (fst a)).
Proof.
  revert q read t. induction data as [|b rest IH]; intros q read t Ha.
  - destruct t; discriminate.
  - destruct t as [|t]; simpl in *.
    + now injection Ha as ->.
    + now apply IH.
Qed.

(** C6: on input and output sequences of one length T, filtering returns
    (it raises nothing) a state trajectory and a prediction trajectory of
    length T each.  Position t < T carries the state the machine is in
    after t joint symbols, a causal-state label or the Unsynchronized
    marker, and the prediction made there; an Unsynchronized position is
    an entry of the trajectory whose prediction is "no prediction". *)
Theorem C6_trajectories_cover_input (m : @Transducer X Y) (L : nat)
    (stringX : list X) (stringY : list Y) :
  List.length stringX = List.length stringY ->
  exists states probs,
    filter_and_predict X_eq_dec Y_eq_dec m L stringX stringY
    = inr (states, probs) /\
    List.length states = List.length stringX /\
    List.length probs = List.length stringX /\
    forall t, t < List.length stringX ->
      exists q x,
        nth_error stringX t = Some x /\
        q = state_after X_eq_dec Y_eq_dec m L (initial m) []
              (combine stringX stringY) t /\
        nth_error states t = Some q /\
        nth_error probs t = Some (predict m q x) /\
        (q = Unsynchronized -> nth_error probs t = Some NoPrediction).
Proof.
  intros Hlen. unfold filter_and_predict.
  apply Nat.eqb_eq in Hlen as Hb. rewrite Hb. cbv zeta.
  set (data := combine stringX stringY).
  set (out := run X_eq_dec Y_eq_dec m L (initial m) [] data).
  assert (Hout : List.length out = List.length stringX).
  { subst out data. rewrite run_length, length_combine. lia. }
  exists (map fst out), (map snd out).
  split; [reflexivity|]. rewrite !length_map. repeat split; auto.
  intros t Ht.
  destruct (nth_error stringX t) as [x|] eqn:Ex;
    [|apply nth_error_None in Ex; lia].
  destruct (nth_error stringY t) as [y|] eqn:Ey;
    [|apply nth_error_None in Ey; lia].
  assert (Ea : nth_error data t = Some (x, y)).
  { subst data. clear - Ex Ey. revert stringY t Ex Ey.
    induction stringX as [|x0 xs IH]; intros [|y0 ys] [|t] Ex Ey;
      simpl in *; try discriminate.
    - congruence.
    - now apply IH. }
  pose proof (run_nth m L (initial m) [] data t (x, y) Ea) as Hnth.
  fold out in Hnth. simpl in Hnth.
  eexists _, x. split; [reflexivity|]. split; [reflexivity|].
  rewrite !nth_error_map, Hnth. simpl. repeat split.
  now intros ->.
Qed.

(** ** Replaying the training data *)

Lemma truncate_short L (h : @History X Y) :
  List.length h <= L -> truncate L h = h.
Proof.
  intros H. unfold truncate.
  replace (List.length h - L) with 0 by lia. reflexivity.
Qed.

Lemma truncate_min L (h : @History X Y) :
  truncate (Nat.min L (List.length h)) h = truncate L h.
Proof. unfold truncate. f_equal. lia. Qed.

(** Truncating before or after a symbol is appended gives the same
    history. *)
Lemma truncate_snoc L (h : @History X Y) (a : @JointSymbol X Y) :
  truncate L (truncate L h ++ [a]) = truncate L (h ++ [a]).
Proof.
  destruct (Nat.le_gt_cases (List.length h) L) as [Hle|Hgt].
  - now rewrite (truncate_short L h Hle).
  - unfold truncate. set (k := List.length h - L).
    rewrite !length_app, length_skipn. simpl List.length.
    replace (List.length h - k + 1 - L) with 1 by lia.
    replace (List.length h + 1 - L) with (1 + k) by lia.
    rewrite <- (skipn_skipn 1 k (h ++ [a])), (skipn_app k h [a]).
    replace (k - List.length h) with 0 by lia.
    reflexivity.
Qed.

Lemma histories_In L (read rest : @History X Y) :
  In (truncate L read) (histories L (read ++ rest)).
Proof.
  unfold histories. apply in_flat_map. exists (List.length read). split.
  - apply in_seq. rewrite length_app. lia.
  - unfold histories_at. apply in_map_iff.
    exists (Nat.min L (List.length read)). split.
    + rewrite firstn_app, firstn_all, Nat.sub_diag. simpl.
      rewrite app_nil_r. apply truncate_min.
    + apply in_seq. lia.
Qed.

Lemma followers_In L (read rest : @History X Y) (a : @JointSymbol X Y) :
  In (truncate L read, a) (followers L (read ++ a :: rest)).
Proof.
  unfold followers. apply in_flat_map. exists (List.length read). split.
  - apply in_seq. rewrite length_app. simpl. lia.
  - rewrite nth_error_app2, Nat.sub_diag by lia. cbn [nth_error].
    apply in_map_iff. exists (truncate L read). split; [reflexivity|].
    unfold histories_at. apply in_map_iff.
    exists (Nat.min L (List.length read)). split.
    + rewrite firstn_app, firstn_all, Nat.sub_diag. simpl.
      rewrite app_nil_r. apply truncate_min.
    + apply in_seq. lia.
Qed.

Lemma joint_eqb_refl (a : @JointSymbol X Y) :
  joint_eqb X_eq_dec Y_eq_dec a a = true.
Proof. unfold joint_eqb. destruct (joint_eq_dec _ _ a a); congruence. Qed.

Lemma at_most_one_In l s :
  at_most_one l = true -> In s l -> hd_error l = Some s.
Proof.
  destruct l as [|s0 r]; simpl; [tauto|].
  intros H [->|Hin]; [reflexivity|].
  rewrite forallb_forall in H. apply H in Hin.
  apply Nat.eqb_eq in Hin. now subst.
Qed.

(** In a unifilar partition the transition on an observed continuation
    leads to the state of the continued history. *)
Lemma delta_of_followed (part : @Partition X Y) L fol (h : @History X Y)
    (a : @JointSymbol X Y) s s' :
  unifilar X_eq_dec Y_eq_dec part L fol = true ->
  In (h, a) fol ->
  part h = Some s ->
  part (truncate L (h ++ [a])) = Some s' ->
  delta_of X_eq_dec Y_eq_dec part L fol s (fst a) (snd a) = Some s'.
Proof.
  intros Huni Hin Hs Hs'. unfold delta_of.
  rewrite <- surjective_pairing.
  apply at_most_one_In.
  - unfold unifilar in Huni. rewrite forallb_forall in Huni.
    specialize (Huni _ Hin). simpl in Huni. now rewrite Hs in Huni.
  - unfold successors. apply in_flat_map. exists (h, a). split; auto.
    cbn [fst snd]. rewrite Hs. cbn [state_is].
    rewrite Nat.eqb_refl, joint_eqb_refl. cbn [andb].
    rewrite Hs'. now left.
Qed.

(** While the training data is replayed the machine sits in the state of
    the history read so far, at every position. *)
Lemma replay_synchronized (part : @Partition X Y) L (data : @History X Y)
    (m : @Transducer X Y) :
  (forall h, In h (histories L data) -> part h <> None) ->
  unifilar X_eq_dec Y_eq_dec part L (followers L data) = true ->
  (forall s x y,
     delta m s x y
     = delta_of X_eq_dec Y_eq_dec part L (followers L data) s x y) ->
  forall (rest read : @History X Y) s,
    read ++ rest = data ->
    part (truncate L read) = Some s ->
    Forall (fun out => exists s', fst out = Synchronized s')
           (run X_eq_dec Y_eq_dec m L (Synchronized s) read rest).
Proof.
  intros Htotal Huni Hdelta rest.
  induction rest as [|a rest IH]; intros read s Hdata Hs; simpl.
  - constructor.
  - constructor; [simpl; eauto|].
    destruct (part (truncate L (read ++ [a]))) as [s'|] eqn:Hs'.
    + rewrite Hdelta.
      rewrite (delta_of_followed part L (followers L data)
                 (truncate L read) a s s'); auto.
      * apply IH; auto. rewrite <- app_assoc. exact Hdata.
      * rewrite <- Hdata. apply followers_In.
      * now rewrite truncate_snoc.
    + exfalso. apply (Htotal (truncate L (read ++ [a]))); auto.
      rewrite <- Hdata.
      replace (read ++ a :: rest) with ((read ++ [a]) ++ rest)
        by (now rewrite <- app_assoc).
      apply histories_In.
Qed.

(** C3: a transducer trained on a pair of sequences, replayed over the
    same pair, gives a state trajectory that is Synchronized at every
    position after an initial window of at most L_max positions.  The
    partition is whatever the CausalStateInferrer froze, provided it
    assigns every history met in training. *)
Theorem C3_round_trip_filtering (axs : list X) (ays : list Y) (L : nat)
    (part : @Partition X Y) (stringX : list X) (stringY : list Y)
    (m : @Transducer X Y) :
  (forall h, In h (histories L (combine stringX stringY)) -> part h <> None) ->
  train X_eq_dec Y_eq_dec axs ays L part stringX stringY = inr m ->
  exists states probs,
    filter_and_predict X_eq_dec Y_eq_dec m L stringX stringY
    = inr (states, probs) /\
    exists window, window <= L /\
      forall t, window <= t -> t < List.length stringX ->
        exists s, nth_error states t = Some (Synchronized s).
Proof.
  intros Htotal Htrain. unfold train in Htrain.
  destruct (Nat.eqb (List.length stringX) (List.length stringY)) eqn:Hlen;
    [|discriminate].
  cbn [negb] in Htrain.
  destruct (negb _); [discriminate|].
  destruct (Nat.ltb (List.length stringX) L); [discriminate|].
  cbv zeta in Htrain.
  set (data := combine stringX stringY) in *.
  destruct (unifilar X_eq_dec Y_eq_dec part L (followers L data)) eqn:Huni;
    [|discriminate].
  injection Htrain as Hm.
  assert (Hstart : start m = part []) by (now rewrite <- Hm).
  assert (Hdelta : forall s x y,
             delta m s x y
             = delta_of X_eq_dec Y_eq_dec part L (followers L data) s x y)
    by (now rewrite <- Hm).
  clear Hm.
  unfold filter_and_predict. rewrite Hlen. cbv zeta. fold data.
  eexists _, _. split; [reflexivity|].
  exists 0. split; [lia|]. intros t _ Ht.
  destruct (part []) as [s0|] eqn:Hs0.
  2:{ exfalso. apply (Htotal []); auto.
      apply (histories_In L [] data). }
  unfold initial. rewrite Hstart.
  pose proof (replay_synchronized part L data m Htotal Huni Hdelta
                data [] s0 eq_refl Hs0) as Hall.
  match type of Hall with Forall _ ?r => set (out := r) in * end.
  assert (Hout : List.length out = List.length stringX).
  { subst out data. rewrite run_length, length_combine.
    apply Nat.eqb_eq in Hlen. lia. }
  destruct (nth_error out t) as [[q p]|] eqn:E.
  - rewrite Forall_forall in Hall.
    destruct (Hall _ (nth_error_In _ _ E)) as [s' Hq]. simpl in Hq. subst q.
    exists s'. now rewrite nth_error_map, E.
  - apply nth_error_None in E. lia.
Qed.

End CoreFacts.

(* ================================================================== *)
(** * Insufficient data *)
(* ================================================================== *)

Section InsufficientData.

Import Demo.

Lemma symbols_length s : List.length (symbols s) = String.length s.
Proof. induction s as [|c s IH]; simpl; auto. Qed.

Section Counting.

Context {X Y : Type}.
Context (X_eq_dec : forall a b : X, {a = b} + {a <> b}).
Context (Y_eq_dec : forall a b : Y, {a = b} + {a <> b}).

(** An entry of a table is a key that occurs, with the number of its
    occurrences: no entry has count zero. *)
Lemma count_table_entry (occurrences : list (@Estimator.Key X Y)) k n :
  In (k, n) (Estimator.count_table X_eq_dec Y_eq_dec occurrences) ->
  In k occurrences /\ 0 < n.
Proof.
  unfold Estimator.count_table. rewrite in_map_iff.
  intros (k' & [= <- <-] & Hk). apply nodup_In in Hk. split; [exact Hk|].
  now apply count_occ_In.
Qed.

(** With fewer than L_max joint symbols the estimator counts nothing. *)
Lemma estimate_short L (stringX : list X) (stringY : list Y) :
  List.length stringX = List.length stringY ->
  List.length stringX < L ->
  Estimator.estimate_predictive_distributions X_eq_dec Y_eq_dec L
    stringX stringY = inl Core.InsufficientData.
Proof.
  intros Hlen Hshort. unfold Estimator.estimate_predictive_distributions.
  apply Nat.eqb_eq in Hlen. apply Nat.ltb_lt in Hshort.
  now rewrite Hlen, Hshort.
Qed.

(** Tables are only produced from at least L_max joint symbols, and no
    entry of them has count zero. *)
Lemma estimate_tables L (stringX : list X) (stringY : list Y) marg fut :
  Estimator.estimate_predictive_distributions X_eq_dec Y_eq_dec L
    stringX stringY = inr (marg, fut) ->
  L <= List.length stringX /\
  forall k n, In (k, n) marg \/ In (k, n) fut -> 0 < n.
Proof.
  unfold Estimator.estimate_predictive_distributions.
  destruct (negb _); [discriminate|].
  destruct (Nat.ltb (List.length stringX) L) eqn:E; [discriminate|].
  apply Nat.ltb_ge in E. cbv zeta. intros [= <- <-]. split; [exact E|].
  intros k n [H|H]; now apply count_table_entry in H.
Qed.

(** With fewer than L_max joint symbols training ends in a DataError,
    whatever partition the inferrer would have frozen. *)
Lemma train_short (axs : list X) (ays : list Y) L (part : @Core.Partition X Y)
    (stringX : list X) (stringY : list Y) :
  List.length stringX = List.length stringY ->
  List.length stringX < L ->
  exists e,
    Core.train X_eq_dec Y_eq_dec axs ays L part stringX stringY
    = inl (Core.Data e).
Proof.
  intros Hlen Hshort. unfold Core.train.
  apply Nat.eqb_eq in Hlen. apply Nat.ltb_lt in Hshort.
  rewrite Hlen. cbn [negb].
  destruct (negb _); [eauto|]. rewrite Hshort. eauto.
Qed.

End Counting.

(** C2: a training dataset of length T < L_max makes training raise a
    DataError before inference.  The run of the script stops inside the
    estimator's call with the DataError of insufficient data, the only
    stage it went through is estimation, no table is produced and no
    transducer is built, whatever the inferrer would have done; and when
    tables are produced at all, T is at least L_max and none of their
    entries has count zero. *)
Theorem C2_insufficient_data_raises (d : Downstream) cfg fs tr0 sX sY :
  load_data (spec_estimator_library d) cfg fs = (tr0, inr (sX, sY)) ->
  String.length sX = String.length sY ->
  String.length sX < L_max cfg ->
  script (spec_estimator_library d) cfg fs
  = ((tr0 ++ [EvEstimate sX sY (L_max cfg)])%list,
     inl (@LibraryError (spec_estimator_library d) (inl Core.InsufficientData)))
  /\ stages (fst (script (spec_estimator_library d) cfg fs)) = [Estimation]
  /\ (forall tables,
        Estimator.estimate_predictive_distributions
          Ascii.ascii_dec Ascii.ascii_dec (L_max cfg) (symbols sX) (symbols sY)
        <> inr tables)
  /\ (forall axs ays part,
        exists e,
          Core.train Ascii.ascii_dec Ascii.ascii_dec axs ays (L_max cfg) part
            (symbols sX) (symbols sY)
          = inl (Core.Data e))
  /\ (forall L stringX stringY marg fut,
        Estimator.estimate_predictive_distributions
          Ascii.ascii_dec Ascii.ascii_dec L stringX stringY = inr (marg, fut) ->
        L <= List.length stringX /\
        forall k n, In (k, n) marg \/ In (k, n) fut -> 0 < n).
Proof.
  intros Hload Hlen Hshort.
  assert (Hlen' : List.length (symbols sX) = List.length (symbols sY))
    by (now rewrite !symbols_length).
  assert (Hshort' : List.length (symbols sX) < L_max cfg)
    by (now rewrite symbols_length).
  pose proof (estimate_short Ascii.ascii_dec Ascii.ascii_dec _ _ _
                Hlen' Hshort') as Hest.
  assert (Hrun : script (spec_estimator_library d) cfg fs
                 = ((tr0 ++ [EvEstimate sX sY (L_max cfg)])%list,
                    inl (@LibraryError (spec_estimator_library d) (inl Core.InsufficientData)))).
  { rewrite script_eq, Hload, train_and_filter_eq.
    apply Nat.eqb_eq in Hlen. rewrite Hlen. cbv zeta.
    cbn [estimate_predictive_distributions spec_estimator_library].
    rewrite Hest. reflexivity. }
  split; [exact Hrun|]. split; [|split; [|split]].
  - rewrite Hrun. cbn [fst]. rewrite stages_app.
    rewrite (only_opens_stages _ _ (load_data_only_opens _ _ _ _ _ Hload)).
    reflexivity.
  - intros tables. rewrite Hest. discriminate.
  - intros axs ays part. now apply train_short.
  - intros L stringX stringY marg fut. apply estimate_tables.
Qed.

End InsufficientData.

(* ================================================================== *)
(** * Further properties of the script *)
(* ================================================================== *)

Section ScriptExtras.

Import Demo.

Variable lib : Library.

(** How the loading block can fail: only by a missing file, the output
    process's first. *)
Lemma load_data_error cfg fs tr e :
  load_data lib cfg fs = (tr, inl e) ->
  let pathY := data_path (data_prefix cfg) (Yt_name cfg) in
  let pathX := data_path (data_prefix cfg) (Xt_name cfg) in
  (e = IOError pathY /\ fs pathY = None /\ tr = [EvOpen pathY]) \/
  (e = IOError pathX /\ fs pathX = None /\ Xt_name cfg <> "" /\
   fs pathY <> None /\ tr = [EvOpen pathY; EvOpen pathX]).
Proof.
  rewrite load_data_eq. cbv zeta.
  destruct (fs (data_path (data_prefix cfg) (Yt_name cfg))) as [cY|] eqn:EY.
  - destruct (Xt_name cfg =? "") eqn:EX; [discriminate|].
    apply String.eqb_neq in EX.
    destruct (fs (data_path (data_prefix cfg) (Xt_name cfg))) eqn:EXf;
      [discriminate|].
    intros [= <- <-]. right. repeat split; auto. discriminate.
  - intros [= <- <-]. now left.
Qed.

(** Every way a run can end, by what stopped it. *)
Lemma script_cases cfg fs :
  (exists tr e, load_data lib cfg fs = (tr, inl e) /\
                script lib cfg fs = (tr, inl e))
  \/
  (exists tr0 sX sY,
     load_data lib cfg fs = (tr0, inr (sX, sY)) /\
     String.length sX <> String.length sY /\
     script lib cfg fs = (tr0, inl (AssertionError length_msg)))
  \/
  (exists tr0 sX sY tr r,
     load_data lib cfg fs = (tr0, inr (sX, sY)) /\
     String.length sX = String.length sY /\
     script lib cfg fs
     = ((tr0 ++ EvEstimate sX sY (L_max cfg) :: tr)%list, r) /\
     forall e, r = inl e -> exists le, e = LibraryError le).
Proof.
  destruct (load_data lib cfg fs) as [tr0 [e|[sX sY]]] eqn:Hload.
  - left. exists tr0, e. split; [reflexivity|].
    now rewrite script_eq, Hload.
  - right.
    destruct (Nat.eq_dec (String.length sX) (String.length sY)) as [Heq|Hne].
    + right.
      destruct (script_equal_lengths lib _ _ _ _ _ Hload Heq)
        as (tr & r & Hrun & Hr).
      exists tr0, sX, sY, tr, r. auto.
    + left. exists tr0, sX, sY. repeat split; auto.
      rewrite script_eq, Hload, train_and_filter_eq.
      apply Nat.eqb_neq in Hne. rewrite Hne. simpl. now rewrite app_nil_r.
Qed.

(** X1: a missing data file stops the run with the IOError of [open] on
    that file.  The output process's file is opened first; when it is
    missing the input process's file is not tried; nothing but file
    openings has happened by then. *)
Theorem X1_missing_data_file cfg fs :
  let pathY := data_path (data_prefix cfg) (Yt_name cfg) in
  let pathX := data_path (data_prefix cfg) (Xt_name cfg) in
  (fs pathY = None ->
   script lib cfg fs = ([EvOpen pathY], inl (IOError pathY)))
  /\
  (fs pathY <> None -> Xt_name cfg <> "" -> fs pathX = None ->
   script lib cfg fs = ([EvOpen pathY; EvOpen pathX], inl (IOError pathX)))
  /\
  (forall tr p,
     script lib cfg fs = (tr, inl (IOError p)) ->
     fs p = None /\ only_opens tr /\
     (p = pathY \/ (p = pathX /\ Xt_name cfg <> ""))).
Proof.
  cbv zeta. split; [|split].
  - intros HY. rewrite script_eq, load_data_eq. cbv zeta. now rewrite HY.
  - intros HY HX HXf. rewrite script_eq, load_data_eq. cbv zeta.
    destruct (fs (data_path (data_prefix cfg) (Yt_name cfg))); [|tauto].
    apply String.eqb_neq in HX. now rewrite HX, HXf.
  - intros tr p Hrun.
    destruct (script_cases cfg fs)
      as [(tr' & e & Hload & Hs)
         |[(tr0 & sX & sY & _ & _ & Hs)
          |(tr0 & sX & sY & tr' & r & _ & _ & Hs & Hr)]];
      rewrite Hs in Hrun.
    + injection Hrun as -> ->.
      pose proof (load_data_only_opens _ _ _ _ _ Hload) as Hopen.
      apply load_data_error in Hload. cbv zeta in Hload.
      destruct Hload as [([= ->] & HY & _)|([= ->] & HX & HXn & _)]; auto.
    + discriminate Hrun.
    + injection Hrun as _ ->. destruct (Hr _ eq_refl) as [le Hle].
      discriminate Hle.
Qed.

(** X2: [str.format] never stops a run.  Each of the script's templates
    has as many replacement fields as it is given arguments, and an
    argument is inserted as it is, braces included, so the four formatted
    strings are the concatenations below and no run ends with an
    exception of [format], whatever the prefix and the process names
    are. *)
Theorem X2_format_never_fails cfg fs :
  (forall prefix name,
     Py.format "data/{}{}.dat" [prefix; name] = inr (data_path prefix name))
  /\
  (forall count,
     Py.format "The epsilon-transducer has {} states." [count]
     = inr ("The epsilon-transducer has " ++ count ++ " states."))
  /\
  (forall xt yt,
     Py.format "open transCSSR_results/{}+{}.dot" [xt; yt]
     = inr (dot_cmd xt yt))
  /\
  (forall xt yt,
     Py.format "open transCSSR_results/{}+{}.dat_results" [xt; yt]
     = inr (dat_results_cmd xt yt))
  /\
  (forall tr e, script lib cfg fs <> (tr, inl (FormatExn e))).
Proof.
  repeat (split; [reflexivity|]).
  intros tr e Hrun.
  destruct (script_cases cfg fs)
    as [(tr' & e' & Hload & Hs)
       |[(tr0 & sX & sY & _ & _ & Hs)
        |(tr0 & sX & sY & tr' & r & _ & _ & Hs & Hr)]];
    rewrite Hs in Hrun.
  - injection Hrun as -> ->.
    apply load_data_error in Hload. cbv zeta in Hload.
    destruct Hload as [(H & _)|(H & _)]; discriminate H.
  - discriminate Hrun.
  - injection Hrun as _ ->. destruct (Hr _ eq_refl) as [le Hle].
    discriminate Hle.
Qed.

(** X3: the significance level and the verbosity flag assigned by the
    script reach nothing: two configurations that agree on the data
    prefix, the two process names, the two alphabets and L_max give the
    same run, event for event. *)
Theorem X3_alpha_and_verbose_unused cfg cfg' fs :
  data_prefix cfg = data_prefix cfg' ->
  Yt_name cfg = Yt_name cfg' ->
  Xt_name cfg = Xt_name cfg' ->
  axs cfg = axs cfg' ->
  ays cfg = ays cfg' ->
  L_max cfg = L_max cfg' ->
  script lib cfg fs = script lib cfg' fs.
Proof.
  destruct cfg, cfg'. simpl. intros -> -> -> -> -> ->. reflexivity.
Qed.

(** X4: when [estimate_predictive_distributions] or [run_transCSSR]
    raises, the run ends with that exception and has shown nothing:
    no line is printed and no viewer is started. *)
Theorem X4_no_output_when_training_fails cfg fs tr0 sX sY e :
  load_data lib cfg fs = (tr0, inr (sX, sY)) ->
  String.length sX = String.length sY ->
  (estimate_predictive_distributions lib sX sY (L_max cfg) = inl e \/
   exists marg fut,
     estimate_predictive_distributions lib sX sY (L_max cfg)
     = inr (marg, fut) /\
     run_transCSSR lib marg fut (L_max cfg) (axs cfg) (ays cfg)
       (e_symbols cfg) (Xt_name cfg) (Yt_name cfg) = inl e) ->
  snd (script lib cfg fs) = inl (LibraryError e) /\
  forall ev, In ev (fst (script lib cfg fs)) -> is_output ev = false.
Proof.
  intros Hload Hlen Hfail.
  pose proof (load_data_only_opens _ _ _ _ _ Hload) as Hopen.
  rewrite script_eq, Hload, train_and_filter_eq.
  apply Nat.eqb_eq in Hlen. rewrite Hlen. cbv zeta.
  destruct Hfail as [Hest|(marg & fut & Hest & Hrun)]; rewrite Hest.
  - simpl. split; [reflexivity|]. intros ev Hev.
    apply in_app_or in Hev as [Hev|[<-|[]]]; [|reflexivity].
    destruct (Hopen _ Hev) as [p ->]. reflexivity.
  - rewrite Hrun. simpl. split; [reflexivity|]. intros ev Hev.
    apply in_app_or in Hev as [Hev|[<-|[<-|[]]]]; try reflexivity.
    destruct (Hopen _ Hev) as [p ->]. reflexivity.
Qed.

Ltac trace_event Hopen :=
  match goal with
  | H : In _ (_ ++ _) |- _ =>
      apply in_app_or in H as [H|H];
      [ destruct (Hopen _ H) as [? ?]; discriminate
      | simpl in H; intuition (try discriminate) ]
  | H : In _ _ |- _ => destruct (Hopen _ H) as [? ?]; discriminate
  end.

(** X5: training and filtering are called with one and the same
    configuration: every call of [run_transCSSR] carries the script's
    L_max, alphabets, emission symbols and process names, every call of
    [filter_and_predict] the same L_max, alphabets and emission symbols,
    and the morphs handed to [print_morph_by_states] are the ones handed
    to [filter_and_predict]. *)
Theorem X5_one_configuration_throughout cfg fs :
  let tr := fst (script lib cfg fs) in
  (forall marg fut l a b es xn yn,
     In (EvRunTransCSSR marg fut l a b es xn yn) tr ->
     l = L_max cfg /\ a = axs cfg /\ b = ays cfg /\ es = e_symbols cfg /\
     xn = Xt_name cfg /\ yn = Yt_name cfg)
  /\
  (forall sx sy epsilon invepsilon morph a b es l,
     In (EvFilter sx sy epsilon invepsilon morph a b es l) tr ->
     l = L_max cfg /\ a = axs cfg /\ b = ays cfg /\ es = e_symbols cfg /\
     In (EvPrintMorph morph) tr)
  /\
  (forall morph morph',
     In (EvPrintMorph morph) tr -> In (EvPrintMorph morph') tr ->
     morph = morph').
Proof.
  cbv zeta. rewrite script_eq.
  destruct (load_data lib cfg fs) as [tr0 [e|[sX sY]]] eqn:Hload;
    pose proof (load_data_only_opens _ _ _ _ _ Hload) as Hopen.
  { simpl. repeat split; intros; trace_event Hopen. }
  rewrite train_and_filter_eq. cbv zeta.
  destruct (Nat.eqb (String.length sX) (String.length sY)).
  2:{ simpl. rewrite app_nil_r. repeat split; intros; trace_event Hopen. }
  destruct (estimate_predictive_distributions lib sX sY (L_max cfg))
    as [e|[marg fut]].
  { simpl. repeat split; intros; trace_event Hopen. }
  destruct (run_transCSSR lib marg fut (L_max cfg) (axs cfg) (ays cfg)
              (e_symbols cfg) (Xt_name cfg) (Yt_name cfg))
    as [e|[[epsilon invepsilon] morph]].
  { simpl. repeat split; intros; trace_event Hopen; congruence. }
  unfold report_events.
  destruct (print_morph_by_states lib morph) as [e|[]];
    destruct (Nat.ltb (len_invepsilon lib invepsilon) 30); simpl;
    (split; [|split]);
    try (intros; trace_event Hopen; congruence);
    try (intros mor mor' H H'; do 2 trace_event Hopen; congruence);
    intros sx sy eps inv mor a b es l H; trace_event Hopen;
    match goal with E : EvFilter _ _ _ _ _ _ _ _ _ = _ |- _ =>
      injection E as <- <- <- <- <- <- <- <- <- end;
    (repeat split; auto); apply in_or_app; right; simpl; tauto.
Qed.

(** X6: when the input process is the output process, the same file is
    opened twice, the two sequences are equal and the length check cannot
    fail. *)
Theorem X6_same_process cfg fs :
  Xt_name cfg = Yt_name cfg ->
  Xt_name cfg <> "" ->
  (forall tr0 sX sY,
     load_data lib cfg fs = (tr0, inr (sX, sY)) ->
     sX = sY /\
     tr0 = [EvOpen (data_path (data_prefix cfg) (Yt_name cfg));
            EvOpen (data_path (data_prefix cfg) (Yt_name cfg))])
  /\
  (forall tr msg, script lib cfg fs <> (tr, inl (AssertionError msg))).
Proof.
  intros Hsame Hne.
  assert (Hload : forall tr0 sX sY,
             load_data lib cfg fs = (tr0, inr (sX, sY)) ->
             sX = sY /\
             tr0 = [EvOpen (data_path (data_prefix cfg) (Yt_name cfg));
                    EvOpen (data_path (data_prefix cfg) (Yt_name cfg))]).
  { intros tr0 sX sY. rewrite load_data_eq. cbv zeta.
    apply String.eqb_neq in Hne. rewrite Hne, Hsame.
    destruct (fs (data_path (data_prefix cfg) (Yt_name cfg)));
      [|discriminate].
    intros [= <- <- <-]. auto. }
  split; [exact Hload|].
  intros tr msg H. apply script_assertion in H as (sX & sY & H & Hlen).
  destruct (Hload _ _ _ H) as [-> _]. now apply Hlen.
Qed.

End ScriptExtras.

Section NamesAndSequences.

Import Py Demo.

Lemma length_append (a b : string) :
  String.length (a ++ b) = String.length a + String.length b.
Proof. induction a as [|c a IH]; simpl; auto. Qed.

Lemma append_cancel_r (a b t : string) : a ++ t = b ++ t -> a = b.
Proof.
  revert b. induction a as [|c a IH]; intros [|d b] H; auto.
  - apply (f_equal String.length) in H. simpl in H.
    rewrite length_append in H. lia.
  - apply (f_equal String.length) in H. simpl in H.
    rewrite length_append in H. lia.
  - simpl in H. injection H as -> H. f_equal. now apply IH.
Qed.

Lemma to_uint_not_nil n : Nat.to_uint n <> Decimal.Nil.
Proof.
  rewrite <- (Unsigned.of_to n) at 1. rewrite Unsigned.to_of.
  unfold Decimal.unorm. destruct (Decimal.nzhead (Nat.to_uint n)); discriminate.
Qed.

Lemma str_of_nat_inj n m : str_of_nat n = str_of_nat m -> n = m.
Proof.
  unfold str_of_nat. intros H.
  apply (f_equal NilZero.uint_of_string) in H.
  rewrite !NilZero.usu in H by apply to_uint_not_nil.
  injection H as H. now apply Unsigned.to_uint_inj.
Qed.

(** X7: the line that reports the state count determines the count:
    different values of len(invepsilon) are printed as different lines,
    and none of them is the warning line. *)
Theorem X7_state_count_line_is_faithful n m :
  (states_msg n = states_msg m -> n = m) /\ states_msg n <> warning_msg.
Proof.
  split; [|discriminate].
  unfold states_msg. intros H.
  apply append_cancel_l, append_cancel_r in H. now apply str_of_nat_inj.
Qed.

Lemma plus_free_prefix (x x' r r' : string) :
  no_plus x = true -> no_plus x' = true ->
  x ++ String "+" r = x' ++ String "+" r' -> x = x' /\ r = r'.
Proof.
  revert x'. induction x as [|c x IH]; intros [|c' x'] Hx Hx' H; simpl in *.
  - injection H as ->. auto.
  - injection H as <- _. discriminate Hx'.
  - injection H as -> _. discriminate Hx.
  - apply andb_prop in Hx as [_ Hx]. apply andb_prop in Hx' as [_ Hx'].
    injection H as -> H. destruct (IH _ Hx Hx' H) as [-> ->]. auto.
Qed.

(** X8: the viewer commands name the result files by the two process
    names joined with a plus sign.  For input-process names without a
    plus sign the command determines both names, so two pairs of processes
    never share a result file; with a plus sign in the input name two
    different pairs can give the same command. *)
Theorem X8_result_file_names x y x' y' :
  (no_plus x = true -> no_plus x' = true ->
   (dot_cmd x y = dot_cmd x' y' -> x = x' /\ y = y') /\
   (dat_results_cmd x y = dat_results_cmd x' y' -> x = x' /\ y = y'))
  /\ dot_cmd "a+b" "c" = dot_cmd "a" "b+c"
  /\ dat_results_cmd "a+b" "c" = dat_results_cmd "a" "b+c".
Proof.
  split; [|split; reflexivity].
  intros Hx Hx'. unfold dot_cmd, dat_results_cmd. split; intros H;
    apply append_cancel_l in H;
    apply (plus_free_prefix _ _ _ _ Hx Hx') in H as [-> H];
    apply append_cancel_r in H; auto.
Qed.

Lemma no_newline_first_line content : no_newline (first_line content) = true.
Proof.
  induction content as [|c r IH]; simpl; auto.
  destruct (Ascii.eqb c newline) eqn:E; simpl; auto. now rewrite E.
Qed.

Lemma no_newline_lstrip s : no_newline s = true -> no_newline (lstrip s) = true.
Proof.
  induction s as [|c r IH]; simpl; auto.
  intros H. destruct (isspace c); [|exact H].
  apply andb_prop in H as [_ H]. auto.
Qed.

Lemma no_newline_rstrip s : no_newline s = true -> no_newline (rstrip s) = true.
Proof.
  induction s as [|c r IH]; simpl; auto.
  intros H. apply andb_prop in H as [Hc Hr]. specialize (IH Hr).
  destruct (rstrip r).
  - destruct (isspace c); simpl; auto. now rewrite Hc.
  - simpl in *. now rewrite Hc, IH.
Qed.

Lemma no_newline_repeat_zero n : no_newline (repeat_str "0" n) = true.
Proof. induction n; simpl; auto. Qed.

Lemma no_newline_loaded content :
  no_newline (strip (readline content)) = true.
Proof.
  rewrite strip_readline. unfold strip.
  apply no_newline_rstrip, no_newline_lstrip, no_newline_first_line.
Qed.

(** X9: the two sequences the script works on never contain a newline:
    every symbol counted in Tx and Ty is a character of one line (or a
    synthesized '0'). *)
Theorem X9_sequences_hold_no_newline (lib : Library) cfg fs tr0 sX sY :
  load_data lib cfg fs = (tr0, inr (sX, sY)) ->
  no_newline sX = true /\ no_newline sY = true.
Proof.
  rewrite load_data_eq. cbv zeta.
  destruct (fs (data_path (data_prefix cfg) (Yt_name cfg))) as [cY|];
    [|discriminate].
  destruct (Xt_name cfg =? "").
  - intros [= _ <- <-]. split.
    + apply no_newline_repeat_zero.
    + apply no_newline_loaded.
  - destruct (fs (data_path (data_prefix cfg) (Xt_name cfg))) as [cX|];
      [|discriminate].
    intros [= _ <- <-]. split; apply no_newline_loaded.
Qed.

Lemma product_NoDup {A B} (xs : list A) (ys : list B) :
  NoDup xs -> NoDup ys -> NoDup (product xs ys).
Proof.
  intros Hx Hy. induction Hx as [|x xs Hin Hx IH]; simpl; [constructor|].
  apply NoDup_app; auto.
  - clear - Hy. induction Hy as [|y ys Hin Hy IH]; simpl; constructor; auto.
    rewrite in_map_iff. intros (y' & [= <-] & H). contradiction.
  - intros [a b] Ha Hb. apply in_map_iff in Ha as (y & [= <- <-] & _).
    apply product_In in Hb as [Hb _]. contradiction.
Qed.

(** X10: when neither alphabet lists a symbol twice, no pair occurs
    twice in [e_symbols]. *)
Theorem X10_e_symbols_without_repetition (cfg : Config) :
  NoDup (axs cfg) -> NoDup (ays cfg) -> NoDup (e_symbols cfg).
Proof. apply product_NoDup. Qed.

Lemma strip_empty_iff s : strip s = "" <-> all_space s = true.
Proof.
  split.
  - intros H. destruct (strip_stripped_of s) as (l & r & E & Hl & Hr & _).
    rewrite H in E. simpl in E. subst s. clear H.
    induction l as [|c l IH]; simpl in *; auto.
    apply andb_prop in Hl as [Hc Hl]. rewrite Hc. simpl. auto.
  - intros H. unfold strip. now rewrite lstrip_all_space.
Qed.

(** X11: a loaded sequence is empty exactly when the first line of its
    file is blank (empty or whitespace only); what the later lines hold
    makes no difference, so a data file that starts with a blank line
    gives T = 0. *)
Theorem X11_blank_first_line (lib : Library) cfg fs tr0 sX sY :
  load_data lib cfg fs = (tr0, inr (sX, sY)) ->
  (exists contentY,
     fs (data_path (data_prefix cfg) (Yt_name cfg)) = Some contentY /\
     (sY = "" <-> all_space (first_line contentY) = true))
  /\
  (Xt_name cfg <> "" ->
   exists contentX,
     fs (data_path (data_prefix cfg) (Xt_name cfg)) = Some contentX /\
     (sX = "" <-> all_space (first_line contentX) = true)).
Proof.
  rewrite load_data_eq. cbv zeta.
  destruct (fs (data_path (data_prefix cfg) (Yt_name cfg))) as [cY|];
    [|discriminate].
  destruct (Xt_name cfg =? "") eqn:EX.
  - intros [= _ _ <-]. split.
    + exists cY. split; auto. rewrite strip_readline. apply strip_empty_iff.
    + intros HX. apply String.eqb_neq in HX. congruence.
  - destruct (fs (data_path (data_prefix cfg) (Xt_name cfg))) as [cX|];
      [|discriminate].
    intros [= _ <- <-]. split.
    + exists cY. split; auto. rewrite strip_readline. apply strip_empty_iff.
    + intros _. exists cX. split; auto.
      rewrite strip_readline. apply strip_empty_iff.
Qed.

Lemma first_line_crlf line rest :
  no_newline line = true ->
  first_line (line ++ crlf ++ rest) = line ++ cr.
Proof.
  induction line as [|c r IH].
  - reflexivity.
  - intros H. simpl in H. apply andb_prop in H as [Hc Hr].
    apply negb_true_iff in Hc. cbn [append first_line].
    rewrite Hc. now rewrite IH.
Qed.

(** X12: the line ending does not matter: a first line ended by carriage
    return and newline, by a newline alone, or by the end of the file
    loads as the same sequence, the line stripped. *)
Theorem X12_line_endings line rest rest' :
  no_newline line = true ->
  strip (readline (line ++ crlf ++ rest)) = strip line /\
  strip (readline (line ++ nl ++ rest')) = strip line /\
  strip (readline line) = strip line.
Proof.
  intros H. rewrite !strip_readline. repeat split.
  - rewrite first_line_crlf by assumption. now apply strip_snoc_space.
  - unfold nl. simpl. now rewrite first_line_app.
  - now rewrite first_line_no_newline.
Qed.

End NamesAndSequences.

(* ================================================================== *)
(** * Concrete runs *)
(* ================================================================== *)

Section Runs.

Import Demo.

Let lib := constant_library 3.

Example run_matched_files :
  script lib demo_config matched_files
  = ([ EvOpen "data/coinflip-excite_w_refrac.dat";
       EvOpen "data/coinflip.dat";
       EvEstimate "0120" "0110" 1;
       EvRunTransCSSR (tt : WordLookup lib) (tt : WordLookup lib) 1
         ["0"; "1"; "2"] ["0"; "1"]
         [("0", "0"); ("0", "1"); ("1", "0"); ("1", "1"); ("2", "0"); ("2", "1")]
         "coinflip" "coinflip-excite_w_refrac";
       EvPrint "The epsilon-transducer has 3 states.";
       EvSystem "open transCSSR_results/coinflip+coinflip-excite_w_refrac.dot";
       EvSystem "open transCSSR_results/coinflip+coinflip-excite_w_refrac.dat_results";
       EvPrintMorph (tt : Morphs lib);
       EvFilter "0120" "0110" (tt : Epsilon lib) (3 : Invepsilon lib)
         (tt : Morphs lib) ["0"; "1"; "2"] ["0"; "1"]
         [("0", "0"); ("0", "1"); ("1", "0"); ("1", "1"); ("2", "0"); ("2", "1")]
         1 ],
     inr (tt, tt, tt)).
Proof. reflexivity. Qed.

Example run_many_states :
  fst (script (constant_library 30) demo_config matched_files)
  = [ EvOpen "data/coinflip-excite_w_refrac.dat";
      EvOpen "data/coinflip.dat";
      EvEstimate "0120" "0110" 1;
      EvRunTransCSSR (tt : WordLookup (constant_library 30))
        (tt : WordLookup (constant_library 30)) 1
        ["0"; "1"; "2"] ["0"; "1"]
        [("0", "0"); ("0", "1"); ("1", "0"); ("1", "1"); ("2", "0"); ("2", "1")]
        "coinflip" "coinflip-excite_w_refrac";
      EvPrint "The epsilon-transducer has 30 states.";
      EvPrint "Warning: The epsilon-transducer has {} states, so we will not open the dot file.";
      EvSystem "open transCSSR_results/coinflip+coinflip-excite_w_refrac.dat_results";
      EvPrintMorph (tt : Morphs (constant_library 30));
      EvFilter "0120" "0110" (tt : Epsilon (constant_library 30))
        (30 : Invepsilon (constant_library 30))
        (tt : Morphs (constant_library 30)) ["0"; "1"; "2"] ["0"; "1"]
        [("0", "0"); ("0", "1"); ("1", "0"); ("1", "1"); ("2", "0"); ("2", "1")]
        1 ].
Proof. reflexivity. Qed.

Example run_mismatched_files :
  script lib demo_config mismatched_files
  = ([ EvOpen "data/coinflip-excite_w_refrac.dat";
       EvOpen "data/coinflip.dat" ],
     inl (AssertionError "The two time series must have the same length.")).
Proof. reflexivity. Qed.

(** The script itself compares T with nothing: with stand-ins that accept
    every input, T = 0 and L_max = 1 run through estimation to the end. *)
Example run_empty_files :
  exists tr,
    script lib demo_config empty_files
    = ((EvOpen "data/coinflip-excite_w_refrac.dat"
          :: EvOpen "data/coinflip.dat"
          :: EvEstimate "" "" 1 :: tr)%list,
       inr (tt, tt, tt)).
Proof. eexists. reflexivity. Qed.

Example run_missing_file :
  script lib demo_config (files [])
  = ([EvOpen "data/coinflip-excite_w_refrac.dat"],
     inl (IOError "data/coinflip-excite_w_refrac.dat")).
Proof. reflexivity. Qed.

End Runs.

Example strip_readline_example :
  Py.strip (Py.readline ("  0110 " ++ nl ++ "1001")) = "0110".
Proof. reflexivity. Qed.

Example format_example a b :
  Py.format "data/{}{}.dat" [a; b] = inr ("data/" ++ a ++ b ++ ".dat").
Proof. reflexivity. Qed.

Example format_too_few_arguments :
  Py.format "data/{}{}.dat" ["x"] = inl Py.IndexError.
Proof. reflexivity. Qed.

Example str_of_nat_example : Py.str_of_nat 30 = "30" /\ Py.str_of_nat 0 = "0".
Proof. split; reflexivity. Qed.

(** Filtering data with a symbol never seen in training: position 1
    cannot be continued, position 2 is Unsynchronized and is reported as
    such, and the machine recovers at position 3. *)
Example filter_unsynchronized_is_data :
  Core.filter_and_predict Nat.eq_dec Nat.eq_dec last_output_transducer 1
    [0; 1; 0; 0; 0] [0; 0; 0; 1; 1]
  = inr ([ Core.Synchronized 0; Core.Synchronized 1; Core.Unsynchronized;
           Core.Synchronized 1; Core.Synchronized 2 ],
         [ Core.Predict [(0, (1 # 2)%Q); (1, (1 # 2)%Q)];
           Core.UnknownMorph;
           Core.NoPrediction;
           Core.Predict [(0, (1 # 2)%Q); (1, (1 # 2)%Q)];
           Core.Predict [(0, (1 # 2)%Q); (1, (1 # 2)%Q)] ]).
Proof. reflexivity. Qed.

Example train_coin_example :
  match Core.train Nat.eq_dec Nat.eq_dec [0] [0; 1] 1 last_output_partition
          coin_inputs coin_outputs with
  | inr m =>
      Core.filter_and_predict Nat.eq_dec Nat.eq_dec m 1 coin_inputs coin_outputs
      = inr ([ Core.Synchronized 0; Core.Synchronized 1; Core.Synchronized 2;
               Core.Synchronized 2; Core.Synchronized 1; Core.Synchronized 2 ],
             [ Core.Predict [(0, (3 # 6)%Q); (1, (3 # 6)%Q)];
               Core.Predict [(0, (0 # 2)%Q); (1, (2 # 2)%Q)];
               Core.Predict [(0, (2 # 3)%Q); (1, (1 # 3)%Q)];
               Core.Predict [(0, (2 # 3)%Q); (1, (1 # 3)%Q)];
               Core.Predict [(0, (0 # 2)%Q); (1, (2 # 2)%Q)];
               Core.Predict [(0, (2 # 3)%Q); (1, (1 # 3)%Q)] ])
  | inl _ => False
  end.
Proof. reflexivity. Qed.

Example train_short_data_example :
  Core.train Nat.eq_dec Nat.eq_dec [0] [0; 1] 3 last_output_partition [0; 0] [1; 0]
  = inl (Core.Data Core.InsufficientData).
Proof. reflexivity. Qed.

(** A biased coin behind a constant input: one state, whose morph
    aggregates the counts of the null history (six occurrences) and of the
    two histories of length 1 (five occurrences). *)
Example train_single_state_example :
  match Core.train Nat.eq_dec Nat.eq_dec [0] [0; 1] 1 single_state_partition
          coin_inputs [1; 1; 0; 1; 1; 1] with
  | inr m =>
      Core.states m = [ {| Core.ident := 0; Core.representative := [] |} ] /\
      Core.morph m 0 0 = Some [(0, (2 # 11)%Q); (1, (9 # 11)%Q)] /\
      Core.delta m 0 0 1 = Some 0 /\
      Core.delta m 0 1 1 = None
  | inl _ => False
  end.
Proof. repeat split. Qed.

(** A partition that is not unifilar within L_max = 2 is refused. *)
Example train_not_unifilar_example :
  Core.train Nat.eq_dec Nat.eq_dec [0] [0; 1] 2 older_output_partition
    coin_inputs coin_outputs
  = inl Core.DeterminizationError.
Proof. reflexivity. Qed.

(** With the estimator of the design document the same run stops in
    estimation. *)
Example run_empty_files_checked :
  Demo.script (spec_estimator_library (constant_downstream 3))
    demo_config empty_files
  = ([ Demo.EvOpen "data/coinflip-excite_w_refrac.dat";
       Demo.EvOpen "data/coinflip.dat";
       Demo.EvEstimate "" "" 1 ],
     inl (@Demo.LibraryError (spec_estimator_library (constant_downstream 3))
            (inl Core.InsufficientData))).
Proof. reflexivity. Qed.

(** The tables of a short sequence: every history that occurs, with its
    count, and the output symbols that follow it. *)
Example estimate_tables_example :
  Estimator.estimate_predictive_distributions Ascii.ascii_dec Ascii.ascii_dec
    1 (symbols "001") (symbols "011")
  = inr ([ ([("0", "0")], None, 1); ([("0", "1")], None, 1);
           ([], None, 4); ([("1", "1")], None, 1) ],
         [ ([], Some "0", 1); ([("0", "0")], Some "1", 1);
           ([], Some "1", 2); ([("0", "1")], Some "1", 1) ])%char.
Proof. reflexivity. Qed.

(* ================================================================== *)
(** * The theorems at concrete inputs *)
(* ================================================================== *)

Lemma C1_length_assertion_witness :
  Demo.load_data (constant_library 3) demo_config mismatched_files
  = ([ Demo.EvOpen "data/coinflip-excite_w_refrac.dat";
       Demo.EvOpen "data/coinflip.dat" ],
     inr ("0110", "011"))
  /\
  Demo.script (constant_library 3) demo_config mismatched_files
  = ([ Demo.EvOpen "data/coinflip-excite_w_refrac.dat";
       Demo.EvOpen "data/coinflip.dat" ],
     inl (Demo.AssertionError Demo.length_msg)).
Proof.
  split; [reflexivity|].
  refine (proj1 (proj1 (C1_length_assertion_before_estimation
                          (constant_library 3) demo_config mismatched_files
                          _ "0110" "011" eq_refl) _)).
  simpl. discriminate.
Defined.

Lemma C2_insufficient_data_witness :
  Demo.load_data (spec_estimator_library (constant_downstream 3))
    demo_config empty_files
  = ([ Demo.EvOpen "data/coinflip-excite_w_refrac.dat";
       Demo.EvOpen "data/coinflip.dat" ],
     inr ("", ""))
  /\ String.length "" = String.length ""
  /\ String.length "" < L_max demo_config
  /\ Demo.script (spec_estimator_library (constant_downstream 3))
       demo_config empty_files
     = ([ Demo.EvOpen "data/coinflip-excite_w_refrac.dat";
          Demo.EvOpen "data/coinflip.dat";
          Demo.EvEstimate "" "" 1 ],
        inl (@Demo.LibraryError (spec_estimator_library (constant_downstream 3))
                (inl Core.InsufficientData))).
Proof.
  split; [reflexivity|]. split; [reflexivity|]. split; [apply le_n|].
  exact (proj1 (C2_insufficient_data_raises (constant_downstream 3)
                  demo_config empty_files _ "" "" eq_refl eq_refl (le_n 1))).
Defined.

Lemma C5_pipeline_order_witness :
  Demo.load_data (constant_library 3) demo_config matched_files
  = ([ Demo.EvOpen "data/coinflip-excite_w_refrac.dat";
       Demo.EvOpen "data/coinflip.dat" ],
     inr ("0120", "0110"))
  /\
  Demo.stages (fst (Demo.script (constant_library 3) demo_config matched_files))
  = [Demo.Estimation; Demo.Inference; Demo.Filtering].
Proof.
  split; [reflexivity|].
  destruct (C5_pipeline_order (constant_library 3) demo_config matched_files
              _ "0120" "0110" eq_refl) as (_ & _ & _ & _ & Hres).
  destruct (Hres (tt, tt, tt) eq_refl) as (? & ? & ? & ? & ? & _ & _ & Hst).
  exact Hst.
Defined.

Lemma C8_synthesized_input_witness :
  Xt_name synthetic_input_config = ""
  /\
  Demo.load_data (constant_library 3) synthetic_input_config matched_files
  = ([Demo.EvOpen "data/coinflip-excite_w_refrac.dat"], inr ("0000", "0110"))
  /\
  forall tr msg,
    Demo.script (constant_library 3) synthetic_input_config matched_files
    <> (tr, inl (Demo.AssertionError msg)).
Proof.
  split; [reflexivity|]. split; [reflexivity|].
  exact (proj2 (C8_synthesized_input (constant_library 3)
                  synthetic_input_config matched_files eq_refl)).
Defined.

Lemma C9_dot_viewer_branch_witness :
  Demo.load_data (constant_library 3) demo_config matched_files
  = ([ Demo.EvOpen "data/coinflip-excite_w_refrac.dat";
       Demo.EvOpen "data/coinflip.dat" ],
     inr ("0120", "0110"))
  /\
  (In (Demo.EvSystem
         "open transCSSR_results/coinflip+coinflip-excite_w_refrac.dot")
      (fst (Demo.script (constant_library 3) demo_config matched_files))
   <-> 3 < 30).
Proof.
  split; [reflexivity|].
  exact (proj1 (proj2 (C9_dot_viewer_branch (constant_library 3) demo_config
                         matched_files _ "0120" "0110" tt tt tt 3 tt
                         eq_refl eq_refl eq_refl eq_refl))).
Defined.

Lemma C10_first_line_stripped_witness :
  Demo.load_data (constant_library 3) demo_config matched_files
  = ([ Demo.EvOpen "data/coinflip-excite_w_refrac.dat";
       Demo.EvOpen "data/coinflip.dat" ],
     inr ("0120", "0110"))
  /\
  exists contentY,
    matched_files "data/coinflip-excite_w_refrac.dat" = Some contentY /\
    forall s, Demo.stripped_of (Demo.first_line contentY) s <-> s = "0110".
Proof.
  split; [reflexivity|].
  exact (proj1 (C10_first_line_stripped (constant_library 3) demo_config
                  matched_files _ "0120" "0110" eq_refl)).
Defined.

Lemma C6_trajectories_cover_input_witness :
  List.length [0; 1; 0; 0; 0] = List.length [0; 0; 0; 1; 1]
  /\
  exists states probs,
    Core.filter_and_predict Nat.eq_dec Nat.eq_dec last_output_transducer 1
      [0; 1; 0; 0; 0] [0; 0; 0; 1; 1] = inr (states, probs) /\
    List.length states = 5 /\ List.length probs = 5.
Proof.
  split; [reflexivity|].
  destruct (C6_trajectories_cover_input Nat.eq_dec Nat.eq_dec
              last_output_transducer 1 [0; 1; 0; 0; 0] [0; 0; 0; 1; 1]
              eq_refl) as (states & probs & Hf & Hs & Hp & _).
  exists states, probs. auto.
Defined.

Lemma C3_round_trip_filtering_witness :
  (forall h, In h (Core.histories 1 (combine coin_inputs coin_outputs)) ->
             last_output_partition h <> None)
  /\
  exists m states probs,
    Core.train Nat.eq_dec Nat.eq_dec [0] [0; 1] 1 last_output_partition
      coin_inputs coin_outputs = inr m /\
    Core.filter_and_predict Nat.eq_dec Nat.eq_dec m 1 coin_inputs coin_outputs
    = inr (states, probs) /\
    exists window, window <= 1 /\
      forall t, window <= t -> t < List.length coin_inputs ->
        exists s, nth_error states t = Some (Core.Synchronized s).
Proof.
  assert (Htotal : forall h : @Core.History nat nat,
             In h (Core.histories 1 (combine coin_inputs coin_outputs)) ->
             last_output_partition h <> None).
  { intros h _. unfold last_output_partition.
    destruct (rev h) as [|[x y] r]; discriminate. }
  split; [exact Htotal|].
  eexists. 
  assert (Htrain : Core.train Nat.eq_dec Nat.eq_dec [0] [0; 1] 1
                     last_output_partition coin_inputs coin_outputs
                   = inr ?[m]) by reflexivity.
  destruct (C3_round_trip_filtering Nat.eq_dec Nat.eq_dec [0] [0; 1] 1
              last_output_partition coin_inputs coin_outputs _
              Htotal Htrain)
    as (states & probs & Hf & Hw).
  exists states, probs. split; [exact Htrain|]. split; [exact Hf|exact Hw].
Defined.

(** ** The further properties at concrete inputs *)

Lemma X3_alpha_and_verbose_unused_witness :
  alpha demo_config <> alpha other_alpha_config
  /\
  Demo.script (constant_library 3) demo_config matched_files
  = Demo.script (constant_library 3) other_alpha_config matched_files.
Proof.
  split; [discriminate|].
  exact (X3_alpha_and_verbose_unused (constant_library 3) demo_config
           other_alpha_config matched_files
           eq_refl eq_refl eq_refl eq_refl eq_refl eq_refl).
Defined.

Lemma X4_no_output_when_training_fails_witness :
  Demo.load_data failing_library demo_config matched_files
  = ([ Demo.EvOpen "data/coinflip-excite_w_refrac.dat";
       Demo.EvOpen "data/coinflip.dat" ],
     inr ("0120", "0110"))
  /\
  snd (Demo.script failing_library demo_config matched_files)
  = inl (Demo.LibraryError ("estimation failed" : LibExn failing_library)).
Proof.
  split; [reflexivity|].
  exact (proj1 (X4_no_output_when_training_fails failing_library demo_config
                  matched_files _ "0120" "0110" "estimation failed"
                  eq_refl eq_refl (or_introl eq_refl))).
Defined.

Lemma X6_same_process_witness :
  Xt_name same_process_config = Yt_name same_process_config
  /\ Xt_name same_process_config <> ""
  /\ Demo.load_data (constant_library 3) same_process_config matched_files
     = ([ Demo.EvOpen "data/coinflip.dat"; Demo.EvOpen "data/coinflip.dat" ],
        inr ("0120", "0120"))
  /\ forall tr msg,
       Demo.script (constant_library 3) same_process_config matched_files
       <> (tr, inl (Demo.AssertionError msg)).
Proof.
  assert (Hne : Xt_name same_process_config <> "") by discriminate.
  split; [reflexivity|]. split; [exact Hne|]. split; [reflexivity|].
  exact (proj2 (X6_same_process (constant_library 3) same_process_config
                  matched_files eq_refl Hne)).
Defined.

Lemma X9_sequences_hold_no_newline_witness :
  Demo.load_data (constant_library 3) demo_config matched_files
  = ([ Demo.EvOpen "data/coinflip-excite_w_refrac.dat";
       Demo.EvOpen "data/coinflip.dat" ],
     inr ("0120", "0110"))
  /\ Demo.no_newline "0120" = true /\ Demo.no_newline "0110" = true.
Proof.
  split; [reflexivity|].
  exact (X9_sequences_hold_no_newline (constant_library 3) demo_config
           matched_files _ "0120" "0110" eq_refl).
Defined.

Lemma X10_e_symbols_without_repetition_witness :
  NoDup (axs demo_config) /\ NoDup (ays demo_config)
  /\ NoDup (Demo.e_symbols demo_config).
Proof.
  assert (Hx : NoDup (axs demo_config)).
  { simpl. repeat constructor; simpl; intuition discriminate. }
  assert (Hy : NoDup (ays demo_config)).
  { simpl. repeat constructor; simpl; intuition discriminate. }
  split; [exact Hx|]. split; [exact Hy|].
  exact (X10_e_symbols_without_repetition demo_config Hx Hy).
Defined.

Lemma X11_blank_first_line_witness :
  Demo.load_data (constant_library 3) demo_config
    (demo_files ("  " ++ nl ++ "0110") ("0110" ++ nl))
  = ([ Demo.EvOpen "data/coinflip-excite_w_refrac.dat";
       Demo.EvOpen "data/coinflip.dat" ],
     inr ("", "0110"))
  /\
  (Xt_name demo_config <> "" ->
   exists contentX,
     demo_files ("  " ++ nl ++ "0110") ("0110" ++ nl) "data/coinflip.dat"
     = Some contentX /\
     ("" = "" <-> Demo.all_space (Demo.first_line contentX) = true)).
Proof.
  split; [reflexivity|].
  exact (proj2 (X11_blank_first_line (constant_library 3) demo_config
                  (demo_files ("  " ++ nl ++ "0110") ("0110" ++ nl))
                  _ "" "0110" eq_refl)).
Defined.

Lemma X12_line_endings_witness :
  Demo.no_newline " 0110" = true
  /\ Py.strip (Py.readline (" 0110" ++ crlf ++ "1001")) = "0110"
  /\ Py.strip (Py.readline (" 0110" ++ nl ++ "1001")) = "0110"
  /\ Py.strip (Py.readline " 0110") = "0110".
Proof.
  split; [reflexivity|].
  exact (X12_line_endings " 0110" "1001" "1001" eq_refl).
Defined.
